(** * stp_viewer: the upload -> convert -> catalog pipeline of [app.py]

    A shallow embedding of the Flask application in [src/app.py]:
    the file-type check, the upload handler, the STEP-to-STL conversion
    adapter, the two file-serving handlers and the recent-uploads catalog,
    over an explicit model of the two directories the program works on. *)

From Stdlib Require Import ZArith NArith QArith Ascii List Bool Lia.
From Stdlib Require Import Sorted Permutation.
From stdpp Require Import gmap strings list fin_maps sorting.

Set Warnings "-register-all".
Local Open Scope Z_scope.

(** ** Python [str] operations used by the program

    A Python string is a [string] whose characters stand for the code
    points 0..255. The program itself only tests a name for dots and for
    the letters of the allowed extensions. *)

Module Py.

(** [c in s] for a one-character [c]. *)
Fixpoint contains (c : ascii) (s : string) : bool :=
  match s with
  | EmptyString => false
  | String a r => Ascii.eqb a c || contains c r
  end.

(** [s.rfind(c)], [None] standing for [-1]. *)
Fixpoint rfind (c : ascii) (s : string) : option nat :=
  match s with
  | EmptyString => None
  | String a r =>
      match rfind c r with
      | Some i => Some (S i)
      | None => if Ascii.eqb a c then Some 0%nat else None
      end
  end.

(** The slice [s[i:j]]. *)
Definition slice (i j : nat) (s : string) : string :=
  String.substring i (j - i) s.

(** [s.rsplit(sep, 1)] for a one-character separator: the string is cut
    at the last occurrence of [sep]; without one the result is [[s]]. *)
Definition rsplit1 (sep : ascii) (s : string) : list string :=
  match rfind sep s with
  | Some i => [slice 0 i s; slice (S i) (String.length s) s]
  | None => [s]
  end.

(** [c.lower()] and [s.lower()] on ASCII letters. No character outside
    ['A'..'Z'] lowers to one of the letters of the allowed extensions. *)
Definition lower_char (c : ascii) : ascii :=
  let n := N_of_ascii c in
  if ((65 <=? n) && (n <=? 90))%N then ascii_of_N (n + 32) else c.

Fixpoint lower (s : string) : string :=
  match s with
  | EmptyString => EmptyString
  | String a r => String (lower_char a) (lower r)
  end.

(** [c.upper()] and [s.upper()] on ASCII letters. *)
Definition upper_char (c : ascii) : ascii :=
  let n := N_of_ascii c in
  if ((97 <=? n) && (n <=? 122))%N then ascii_of_N (n - 32) else c.

Fixpoint upper (s : string) : string :=
  match s with
  | EmptyString => EmptyString
  | String a r => String (upper_char a) (upper r)
  end.

End Py.

(** ** Configuration (lines 32-35) *)

Inductive folder := UPLOAD_FOLDER | STATIC_FOLDER.

Definition ALLOWED_EXTENSIONS : gset string := {[ "stp"; "step" ]}.

(** ** [allowed_file] (lines 41-42)

    [filename.rsplit('.', 1)[1]] is only evaluated when ['.' in filename];
    the [None] branch stands for the [IndexError] that the guard excludes
    (see [rsplit1_ext_defined]). *)
Definition allowed_file (filename : string) : bool :=
  Py.contains "." filename &&
  match Py.rsplit1 "." filename !! 1%nat with
  | Some ext => bool_decide (Py.lower ext ∈ ALLOWED_EXTENSIONS)
  | None => false
  end.

(** [filename.rsplit('.', 1)[0] + '.stl'] (lines 107 and 157). Index 0 of
    an [rsplit] result always exists (see [rsplit1_stem_defined]). *)
Definition stl_name (filename : string) : string :=
  default "" (Py.rsplit1 "." filename !! 0%nat) +:+ ".stl".

(** ** [werkzeug.utils.secure_filename]

    The sanitizer the upload handler imports (line 5). It is a library
    function; this is its algorithm on names whose characters are code
    points below 256. Its leading Unicode step ([NFKD] normalisation, then
    an ASCII encode that ignores errors) keeps every character below 128
    and replaces any other by the ASCII characters of its decomposition,
    which the platform record supplies. The host platform also decides
    the path separators and whether reserved device names are escaped. *)

Record platform := {
  os_name_nt : bool;                      (* os.name == 'nt' *)
  windows_device_files : gset string;     (* werkzeug's table: CON, PRN, ... *)
  nfkd_ascii : ascii -> string            (* what is left of a character
                                             above 127 *)
}.

Module Werkzeug.

Definition is_ascii (c : ascii) : bool := (N_of_ascii c <? 128)%N.

Fixpoint filter_chars (keep : ascii -> bool) (s : string) : string :=
  match s with
  | EmptyString => EmptyString
  | String c r =>
      if keep c then String c (filter_chars keep r) else filter_chars keep r
  end.

Fixpoint map_chars (f : ascii -> ascii) (s : string) : string :=
  match s with
  | EmptyString => EmptyString
  | String c r => String (f c) (map_chars f r)
  end.

(** [os.sep] and [os.path.altsep]. *)
Definition is_sep (pf : platform) (c : ascii) : bool :=
  if os_name_nt pf then Ascii.eqb c "\" || Ascii.eqb c "/"
  else Ascii.eqb c "/".

(** Whitespace for [str.split()] among ASCII characters. *)
Definition is_space (c : ascii) : bool :=
  let n := N_of_ascii c in
  ((9 <=? n) && (n <=? 13) || (28 <=? n) && (n <=? 32))%N.

(** [s.split()]: the maximal runs of non-whitespace characters. *)
Fixpoint split_ws (s : string) : list string :=
  match s with
  | EmptyString => []
  | String c r =>
      if is_space c then split_ws r
      else
        match r with
        | EmptyString => [String c EmptyString]
        | String c' _ =>
            if is_space c' then String c EmptyString :: split_ws r
            else
              match split_ws r with
              | w :: ws => String c w :: ws
              | [] => [String c EmptyString]
              end
        end
  end.

(** [sep.join(l)]. *)
Fixpoint join (sep : string) (l : list string) : string :=
  match l with
  | [] => EmptyString
  | [w] => w
  | w :: ws => w +:+ sep +:+ join sep ws
  end.

(** The characters the expression [[^A-Za-z0-9_.-]] does not remove. *)
Definition is_safe (c : ascii) : bool :=
  let n := N_of_ascii c in
  ((65 <=? n) && (n <=? 90) || (97 <=? n) && (n <=? 122)
   || (48 <=? n) && (n <=? 57)
   || (n =? 95) || (n =? 46) || (n =? 45))%N.

Fixpoint lstrip (chars : string) (s : string) : string :=
  match s with
  | EmptyString => EmptyString
  | String c r => if Py.contains c chars then lstrip chars r else s
  end.

Fixpoint rstrip (chars : string) (s : string) : string :=
  match s with
  | EmptyString => EmptyString
  | String c r =>
      match rstrip chars r with
      | EmptyString =>
          if Py.contains c chars then EmptyString else String c EmptyString
      | r' => String c r'
      end
  end.

Definition strip (chars : string) (s : string) : string :=
  rstrip chars (lstrip chars s).

(** [s.split('.')[0]]: the part before the first dot. *)
Fixpoint before_first (sep : ascii) (s : string) : string :=
  match s with
  | EmptyString => EmptyString
  | String c r =>
      if Ascii.eqb c sep then EmptyString else String c (before_first sep r)
  end.

(** [unicodedata.normalize("NFKD", s).encode("ascii", "ignore")]. *)
Fixpoint to_ascii (pf : platform) (s : string) : string :=
  match s with
  | EmptyString => EmptyString
  | String c r =>
      if is_ascii c then String c (to_ascii pf r)
      else filter_chars is_ascii (nfkd_ascii pf c) +:+ to_ascii pf r
  end.

Definition secure_filename (pf : platform) (filename : string) : string :=
  let filename := to_ascii pf filename in
  let filename :=
    map_chars (fun c => if is_sep pf c then " "%char else c) filename in
  let filename :=
    strip "._" (filter_chars is_safe (join "_" (split_ws filename))) in
  if os_name_nt pf
     && negb (String.eqb filename "")
     && bool_decide (Py.upper (before_first "." filename)
                       ∈ windows_device_files pf)
  then "_" +:+ filename
  else filename.

End Werkzeug.

(** The ASCII part of the compatibility decomposition of the characters
    128..255, as [unicodedata] gives it. *)
Definition latin1_nfkd_ascii (c : ascii) : string :=
  match N_of_ascii c with
  | 160 | 168 | 175 | 180 | 184 => " "
  | 170 | 224 | 225 | 226 | 227 | 228 | 229 => "a"
  | 178 => "2"
  | 179 => "3"
  | 185 => "1"
  | 186 | 242 | 243 | 244 | 245 | 246 => "o"
  | 188 => "14"
  | 189 => "12"
  | 190 => "34"
  | 192 | 193 | 194 | 195 | 196 | 197 => "A"
  | 199 => "C"
  | 200 | 201 | 202 | 203 => "E"
  | 204 | 205 | 206 | 207 => "I"
  | 209 => "N"
  | 210 | 211 | 212 | 213 | 214 => "O"
  | 217 | 218 | 219 | 220 => "U"
  | 221 => "Y"
  | 231 => "c"
  | 232 | 233 | 234 | 235 => "e"
  | 236 | 237 | 238 | 239 => "i"
  | 241 => "n"
  | 249 | 250 | 251 | 252 => "u"
  | 253 | 255 => "y"
  | _ => ""
  end%N.

Definition posix : platform :=
  {| os_name_nt := false;
     windows_device_files := ∅;
     nfkd_ascii := latin1_nfkd_ascii |}.

Definition windows : platform :=
  {| os_name_nt := true;
     windows_device_files :=
       {[ "CON"; "PRN"; "AUX"; "NUL";
          "COM1"; "COM2"; "COM3"; "COM4"; "LPT1"; "LPT2"; "LPT3" ]};
     nfkd_ascii := latin1_nfkd_ascii |}.

(** ** Exceptions

    The Python exception classes the program raises or meets, each with
    the message [str(e)] returns. [KernelError] is an exception raised
    from inside a geometry-kernel call; [HTTPException] is werkzeug's
    class of exceptions that carry their own status code. *)

Inductive exn :=
| ImportError (msg : string)
| ValueError (msg : string)
| OSError (msg : string)
| KernelError (msg : string)
| HTTPException (code : Z) (msg : string).

Definition str (e : exn) : string :=
  match e with
  | ImportError m | ValueError m | OSError m | KernelError m
  | HTTPException _ m => m
  end.

Inductive result (A : Type) :=
| Ok (a : A)
| Raise (e : exn).
Arguments Ok {A} a.
Arguments Raise {A} e.

Definition rbind {A B} (r : result A) (k : A -> result B) : result B :=
  match r with
  | Ok a => k a
  | Raise e => Raise e
  end.

Declare Scope result_scope.
Delimit Scope result_scope with res.
Notation "x <- r ;; k" := (rbind r (fun x => k))
  (at level 100, r at next level, right associativity) : result_scope.

(** ** The two directories

    A directory maps names to nodes. A [File] carries its modification
    time (an integer time stamp; only the order of time stamps matters to
    the program) and its bytes. A [Broken] node is a name the directory
    lists but that cannot be examined, such as a dangling link: [stat]
    fails on it with the given message. *)

Inductive node :=
| File (mtime : Z) (data : string)
| Broken (err : string).

Abbreviation directory := (gmap string node).

Record fs := {
  uploads_dir : option directory;   (* None: there is no uploads directory *)
  listdir_fault : option string;    (* Some e: the uploads directory cannot
                                       be read, os.listdir raises OSError e *)
  static_dir : directory
}.

(** A path is one of the program's two directories and a name in it:
    [os.path.join(folder, name)] for a name that is a single path segment,
    as the sanitizer produces, [os.listdir] returns and the URL rule
    [<filename>] matches. *)
Definition path : Type := folder * string.

Definition os_path_join (d : folder) (name : string) : path := (d, name).

Definition lookup_path (s : fs) (p : path) : option node :=
  match p.1 with
  | UPLOAD_FOLDER => uploads_dir s ≫= (.!! p.2)
  | STATIC_FOLDER => static_dir s !! p.2
  end.

Definition no_such_file : exn := OSError "No such file or directory".

(** [os.path.exists] never raises; it is false on a name that cannot be
    examined. *)
Definition os_path_exists (s : fs) (p : path) : bool :=
  match lookup_path s p with
  | Some (File _ _) => true
  | _ => false
  end.

Definition os_path_getmtime (s : fs) (p : path) : result Z :=
  match lookup_path s p with
  | Some (File mtime _) => Ok mtime
  | Some (Broken e) => Raise (OSError e)
  | None => Raise no_such_file
  end.

Definition os_path_getsize (s : fs) (p : path) : result Z :=
  match lookup_path s p with
  | Some (File _ data) => Ok (Z.of_nat (String.length data))
  | Some (Broken e) => Raise (OSError e)
  | None => Raise no_such_file
  end.

(** [os.listdir(UPLOAD_FOLDER)]: the names in the directory's own order. *)
Definition os_listdir_uploads (s : fs) : result (list string) :=
  match listdir_fault s with
  | Some e => Raise (OSError e)
  | None =>
      match uploads_dir s with
      | Some d => Ok ((map_to_list d).*1)
      | None => Raise no_such_file
      end
  end.

(** Creating or overwriting the file at a path, as [open(path, 'wb')]
    followed by a write does. The empty name is the directory itself. *)
Definition write_file (now : Z) (p : path) (data : string) (s : fs)
  : result fs :=
  if bool_decide (p.2 = "") then Raise (OSError "Is a directory")
  else
    match p.1 with
    | UPLOAD_FOLDER =>
        match uploads_dir s with
        | Some d =>
            Ok {| uploads_dir := Some (<[p.2 := File now data]> d);
                  listdir_fault := listdir_fault s;
                  static_dir := static_dir s |}
        | None => Raise no_such_file
        end
    | STATIC_FOLDER =>
        Ok {| uploads_dir := uploads_dir s;
              listdir_fault := listdir_fault s;
              static_dir := <[p.2 := File now data]> (static_dir s) |}
    end.

(** Lines 37-39: [os.makedirs(..., exist_ok=True)] for both directories.
    The static directory is present in every state of the model. *)
Definition startup (s : fs) : fs :=
  match uploads_dir s with
  | Some _ => s
  | None =>
      {| uploads_dir := Some ∅;
         listdir_fault := listdir_fault s;
         static_dir := static_dir s |}
  end.

(** ** The geometry kernel (lines 8-30)

    The kernel is a foreign library. A [kernel] gives, for the node found
    at the source path, what each of the calls the adapter makes returns;
    any of them may raise. [Write] either produces the bytes of the mesh
    file and reports success, or reports failure, possibly after it has
    already put some bytes at the output path. *)

Inductive occ_binding := OCP | OCC.

Inductive IFSelect_ReturnStatus :=
| IFSelect_RetVoid
| IFSelect_RetDone
| IFSelect_RetError
| IFSelect_RetFail
| IFSelect_RetStop.

Global Instance IFSelect_ReturnStatus_eq_dec : EqDecision IFSelect_ReturnStatus.
Proof. solve_decision. Defined.

Inductive write_outcome :=
| Written (data : string)
| WriteFailed (left_behind : option string).

Record kernel (shape : Type) := {
  ReadFile : option node -> result IFSelect_ReturnStatus;
  OneShape : option node -> result shape;         (* TransferRoots(); OneShape() *)
  IsNull : shape -> bool;
  IncrementalMesh : shape -> Q -> bool -> result shape;  (* with Perform() *)
  Write : bool -> shape -> result write_outcome;  (* first argument: ASCII mode *)
  format_status : IFSelect_ReturnStatus -> string (* the f-string's {status} *)
}.
Arguments ReadFile {shape} _ _.
Arguments OneShape {shape} _ _.
Arguments IsNull {shape} _ _.
Arguments IncrementalMesh {shape} _ _ _ _.
Arguments Write {shape} _ _ _.
Arguments format_status {shape} _ _.

(** The process-wide facts fixed at start-up: which binding was imported
    (lines 9-27), the host platform, and the local-time rendering
    [datetime.fromtimestamp(t).isoformat()] of a file's time stamp. *)
Record runtime := {
  imported : option occ_binding;
  host : platform;
  isoformat : Z -> string
}.

Definition HAS_OCC (rt : runtime) : bool :=
  match imported rt with
  | Some _ => true
  | None => false
  end.

Definition OCC_TYPE (rt : runtime) : option occ_binding := imported rt.

(** ** Computations that change the directories and may raise *)

Definition M (A : Type) : Type := fs -> result A * fs.

Definition ret {A} (a : A) : M A := fun s => (Ok a, s).
Definition raise {A} (e : exn) : M A := fun s => (Raise e, s).
Definition bind {A B} (m : M A) (k : A -> M B) : M B :=
  fun s =>
    match m s with
    | (Ok a, s') => k a s'
    | (Raise e, s') => (Raise e, s')
    end.
Definition lift {A} (r : result A) : M A := fun s => (r, s).
Definition get : M fs := fun s => (Ok s, s).

Declare Scope m_scope.
Delimit Scope m_scope with M.
Notation "x <- m ;; k" := (bind m (fun x => k))
  (at level 100, m at next level, right associativity) : m_scope.
Notation "m ;;; k" := (bind m (fun _ => k))
  (at level 100, right associativity) : m_scope.

(** ** JSON values and responses *)

Inductive json :=
| JNull
| JBool (b : bool)
| JInt (n : Z)
| JStr (s : string)
| JList (l : list json)
| JDict (kv : list (string * json)).

Inductive body :=
| Json (j : json)          (* jsonify(...) *)
| FileBody (data : string) (* the bytes of a served file *)
| ErrorPage.               (* the framework's own error page *)

Definition response : Type := body * Z.

Definition jsonify (kv : list (string * json)) : body := Json (JDict kv).

(** ** [convert_stp_to_stl] (lines 44-81) *)

Section Program.

Context {shape : Type}.
Variable rt : runtime.
Variable K : kernel shape.
Variable now : Z.    (* the clock reading put on files written meanwhile *)

(** [stl_writer.Write(shape, stl_path)]: the kernel's outcome applied to
    the output path. A path that cannot be opened makes [Write] report
    failure. *)
Definition StlAPI_Writer_Write (ascii_mode : bool) (sh : shape)
    (stl_path : path) : M bool :=
  fun s =>
    match Write K ascii_mode sh with
    | Raise e => (Raise e, s)
    | Ok (Written data) =>
        match write_file now stl_path data s with
        | Ok s' => (Ok true, s')
        | Raise _ => (Ok false, s)
        end
    | Ok (WriteFailed (Some data)) =>
        match write_file now stl_path data s with
        | Ok s' => (Ok false, s')
        | Raise _ => (Ok false, s)
        end
    | Ok (WriteFailed None) => (Ok false, s)
    end.

Definition convert_stp_to_stl (stp_path stl_path : path) : M bool :=
  (if negb (HAS_OCC rt) then
     raise (ImportError
       "OCP (cadquery-ocp) or pythonocc-core is required for STP file conversion")
   else
     s <- get ;;
     status <- lift (ReadFile K (lookup_path s stp_path)) ;;
     if negb (bool_decide (status = IFSelect_RetDone)) then
       raise (ValueError
         ("Error reading STEP file. Status: " +:+ format_status K status))
     else
       sh <- lift (OneShape K (lookup_path s stp_path)) ;;
       if IsNull K sh then
         raise (ValueError "No shape found in STEP file")
       else
         sh <- lift (IncrementalMesh K sh (1 # 10)%Q true) ;;
         let ascii_mode :=
           match OCC_TYPE rt with
           | Some OCP => false
           | _ => false
           end in
         success <- StlAPI_Writer_Write ascii_mode sh stl_path ;;
         if negb success then
           raise (ValueError "Failed to write STL file")
         else ret true)%M.

(** ** [upload_file] (lines 87-128) *)

Record FileStorage := {
  filename : string;
  stream : string
}.

Record request := {
  files : gmap string FileStorage
}.

(** [file.save(stp_path)]. *)
Definition save (file : FileStorage) (dst : path) : M unit :=
  fun s =>
    match write_file now dst (stream file) s with
    | Ok s' => (Ok tt, s')
    | Raise e => (Raise e, s)
    end.

(** The body of the [try] block, lines 101-125. *)
Definition upload_file_try (file : FileStorage) : M response :=
  (let filename := Werkzeug.secure_filename (host rt) (filename file) in
   let stp_path := os_path_join UPLOAD_FOLDER filename in
   save file stp_path ;;;
   let stl_filename := stl_name filename in
   let stl_path := os_path_join STATIC_FOLDER stl_filename in
   if HAS_OCC rt then
     convert_stp_to_stl stp_path stl_path ;;;
     ret (jsonify [("success", JBool true);
                   ("stl_file", JStr ("/static/" +:+ stl_filename));
                   ("filename", JStr filename);
                   ("message", JStr "File uploaded and converted successfully")],
          200)
   else
     ret (jsonify [("success", JBool true);
                   ("stp_file", JStr ("/uploads/" +:+ filename));
                   ("message", JStr "File uploaded. Note: pythonocc-core not installed. Install it for STP conversion.");
                   ("needs_conversion", JBool true)],
          200))%M.

Definition upload_file (req : request) (s : fs) : response * fs :=
  match files req !! "file" with
  | None => ((jsonify [("error", JStr "No file provided")], 400), s)
  | Some file =>
      if bool_decide (filename file = "") then
        ((jsonify [("error", JStr "No file selected")], 400), s)
      else if negb (allowed_file (filename file)) then
        ((jsonify [("error",
                    JStr "Invalid file type. Please upload .stp or .step files")],
          400), s)
      else
        match upload_file_try file s with
        | (Ok resp, s') => (resp, s')
        | (Raise e, s') =>
            ((jsonify [("error", JStr ("Error processing file: " +:+ str e))],
              500), s')
        end
  end.

(** ** Serving stored files (lines 130-136)

    [flask.send_file] is the framework's function: it examines and opens
    the path it is given and raises the operating system's error when
    there is no such file. An exception that leaves a view function is
    answered by the framework: an [HTTPException] with its own status
    code, anything else with status 500. *)





(** ** [get_recent_uploads] (lines 138-179) *)

Record file_info := {
  fi_filename : string;
  fi_stl_file : option string;
  fi_date : Z;
  fi_size : Z
}.

(** Lines 152-166, for one allowed name. *)
Definition scan_file (s : fs) (filename : string) : result file_info :=
  (let file_path := os_path_join UPLOAD_FOLDER filename in
   mtime <- os_path_getmtime s file_path ;;
   let stl_filename := stl_name filename in
   let stl_path := os_path_join STATIC_FOLDER stl_filename in
   let stl_file :=
     if os_path_exists s stl_path then Some ("/static/" +:+ stl_filename)
     else None in
   size <- os_path_getsize s file_path ;;
   Ok {| fi_filename := filename; fi_stl_file := stl_file;
         fi_date := mtime; fi_size := size |})%res.

(** The loop of lines 150-166. *)
Fixpoint scan (s : fs) (names : list string) : result (list file_info) :=
  match names with
  | [] => Ok []
  | filename :: rest =>
      if allowed_file filename then
        (info <- scan_file s filename ;;
         infos <- scan s rest ;;
         Ok (info :: infos))%res
      else scan s rest
  end.

(** [files.sort(key=lambda x: x['date'], reverse=True)]: a stable sort,
    larger dates first, entries of equal date in their original order. *)
Fixpoint insert_desc (x : file_info) (l : list file_info) : list file_info :=
  match l with
  | [] => [x]
  | y :: l' =>
      if fi_date x <? fi_date y then y :: insert_desc x l'
      else x :: y :: l'
  end.

Fixpoint sort_desc (l : list file_info) : list file_info :=
  match l with
  | [] => []
  | x :: l' => insert_desc x (sort_desc l')
  end.

(** Lines 142-170: the entries, sorted and cut, dates still numeric. *)
Definition recent_files (s : fs) : result (list file_info) :=
  match uploads_dir s with
  | None => Ok []
  | Some _ =>
      (names <- os_listdir_uploads s ;;
       files <- scan s names ;;
       let files := sort_desc files in
       let files := take 4 files in
       Ok files)%res
  end.

Definition file_info_json (f : file_info) : json :=
  JDict [("filename", JStr (fi_filename f));
         ("stl_file", match fi_stl_file f with
                      | Some r => JStr r
                      | None => JNull
                      end);
         ("date", JStr (isoformat rt (fi_date f)));
         ("size", JInt (fi_size f))].

Definition get_recent_uploads (s : fs) : response :=
  match recent_files s with
  | Ok files => (jsonify [("files", JList (file_info_json <$> files))], 200)
  | Raise e =>
      (jsonify [("error", JStr (str e)); ("files", JList [])], 500)
  end.

End Program.

(** ** Vocabulary of the specification

    [extension] and [stem] are the specification's notions, written
    independently of [rsplit]: the extension of a name is what follows its
    last dot (a name without a dot has none), the stem is what precedes
    that dot (the whole name when there is none). *)

Fixpoint extension (s : string) : option string :=
  match s with
  | EmptyString => None
  | String c r =>
      match extension r with
      | Some e => Some e
      | None => if Ascii.eqb c "." then Some r else None
      end
  end.

Fixpoint stem (s : string) : string :=
  match s with
  | EmptyString => EmptyString
  | String c r =>
      match extension r with
      | Some _ => String c (stem r)
      | None => if Ascii.eqb c "." then EmptyString else String c r
      end
  end.

Definition dot_free (s : string) : Prop := Py.contains "." s = false.

(** The extension of the name, compared without regard to case, is in the
    allow-set. *)
Definition valid_extension (name : string) : Prop :=
  ∃ e, extension name = Some e ∧ Py.lower e ∈ ALLOWED_EXTENSIONS.

(** Some character of [s] satisfies [q]. *)
Fixpoint has_char (q : ascii -> bool) (s : string) : bool :=
  match s with
  | EmptyString => false
  | String c r => q c || has_char q r
  end.

(** [d[key]] on a JSON object, [None] when the key is absent. *)
Fixpoint assoc (key : string) (kv : list (string * json)) : option json :=
  match kv with
  | [] => None
  | (k, v) :: kv' => if String.eqb k key then Some v else assoc key kv'
  end.

Definition jget (key : string) (b : body) : option json :=
  match b with
  | Json (JDict kv) => assoc key kv
  | _ => None
  end.

Definition jfield (key : string) (j : json) : option json :=
  match j with
  | JDict kv => assoc key kv
  | _ => None
  end.

(** Newest first: every entry is at least as recent as all that follow. *)
Definition newest_first (l : list file_info) : Prop :=
  StronglySorted (fun x y => fi_date y <= fi_date x) l.

(** A file-system access of the catalog scan fails: the uploads directory
    exists but cannot be listed, or it lists an allowed name that cannot
    be examined. *)
Definition scan_fault (s : fs) : Prop :=
  ∃ d, uploads_dir s = Some d ∧
       (is_Some (listdir_fault s) ∨
        ∃ name e, allowed_file name = true ∧ d !! name = Some (Broken e)).

(** The states the running service is in: after start-up, and after any
    number of upload requests (the other handlers change nothing). *)
Inductive reachable {shape} (rt : runtime) (K : kernel shape) : fs -> Prop :=
| reach_startup s0 :
    reachable rt K (startup s0)
| reach_upload s now req :
    reachable rt K s ->
    reachable rt K (upload_file rt K now req s).2.

(** The letter every allowed extension ends in, in either case. *)
Definition is_p (c : ascii) : bool := Ascii.eqb (Py.lower_char c) "p".

(** The state once [data] has been put under [name] in the uploads area
    [d], and in the results area. *)
Definition with_upload (now : Z) (name data : string) (d : directory) (s : fs)
  : fs :=
  {| uploads_dir := Some (<[name := File now data]> d);
     listdir_fault := listdir_fault s;
     static_dir := static_dir s |}.

Definition with_static (now : Z) (name data : string) (s : fs) : fs :=
  {| uploads_dir := uploads_dir s;
     listdir_fault := listdir_fault s;
     static_dir := <[name := File now data]> (static_dir s) |}.

(** The response bodies of the upload handler. *)
Definition invalid_type_body : body :=
  jsonify [("error", JStr "Invalid file type. Please upload .stp or .step files")].

Definition degraded_body (name : string) : body :=
  jsonify [("success", JBool true);
           ("stp_file", JStr ("/uploads/" +:+ name));
           ("message", JStr "File uploaded. Note: pythonocc-core not installed. Install it for STP conversion.");
           ("needs_conversion", JBool true)].

Definition converted_body (name derived : string) : body :=
  jsonify [("success", JBool true);
           ("stl_file", JStr ("/static/" +:+ derived));
           ("filename", JStr name);
           ("message", JStr "File uploaded and converted successfully")].

(** ** A small world for the examples *)

Definition sample_kernel (w : write_outcome) : kernel unit :=
  {| ReadFile := fun _ => Ok IFSelect_RetDone;
     OneShape := fun _ => Ok tt;
     IsNull := fun _ => false;
     IncrementalMesh := fun sh _ _ => Ok sh;
     Write := fun _ _ => Ok w;
     format_status := fun _ => "IFSelect_RetDone" |}.

Definition sample_runtime (imp : option occ_binding) : runtime :=
  {| imported := imp; host := posix; isoformat := fun _ => "2024-01-01T00:00:00" |}.

Definition empty_fs : fs :=
  {| uploads_dir := Some ∅; listdir_fault := None; static_dir := ∅ |}.

Definition submit (name data : string) : request :=
  {| files := {[ "file" := {| filename := name; stream := data |} ]} |}.

Definition unlistable_fs : fs :=
  {| uploads_dir := Some ∅;
     listdir_fault := Some "Permission denied";
     static_dir := ∅ |}.

Definition catalog_fs : fs :=
  {| uploads_dir :=
       Some {[ "cube.step" := File 5 "solid"; "gear.stp" := File 8 "teeth" ]};
     listdir_fault := None;
     static_dir := {[ "gear.stl" := File 9 "mesh" ]} |}.

Definition twin_fs : fs :=
  {| uploads_dir :=
       Some {[ "part.stp" := File 1 "one"; "part.step" := File 2 "two" ]};
     listdir_fault := None;
     static_dir := {[ "part.stl" := File 2 "mesh" ]} |}.


(** ** Vocabulary of the further properties *)

(** Every character of [s] satisfies [q]. *)
Fixpoint all_chars (q : ascii -> bool) (s : string) : bool :=
  match s with
  | EmptyString => true
  | String c r => q c && all_chars q r
  end.

(** Every mesh in the results area has its source in the uploads area: its
    name is the derived name of some name stored there. *)
Definition orphan_free (s : fs) : Prop :=
  ∀ m, is_Some (static_dir s !! m) →
       ∃ n, is_Some (lookup_path s (UPLOAD_FOLDER, n)) ∧ m = stl_name n.


(** * Properties *)

(** ** Strings *)

Lemma app_String c s t : String c s +:+ t = String c (s +:+ t).
Proof. reflexivity. Qed.

Lemma app_empty_l t : "" +:+ t = t.
Proof. reflexivity. Qed.

Lemma substring_all s : String.substring 0 (String.length s) s = s.
Proof. induction s as [|c s IH]; simpl; [done | by rewrite IH]. Qed.

Lemma rfind_None c s : Py.rfind c s = None ↔ Py.contains c s = false.
Proof.
  induction s as [|a r IH]; simpl; [done |].
  destruct (Py.rfind c r) as [i|].
  - split; [done |]. intros [_ H]%orb_false_iff. by apply IH in H.
  - destruct (Ascii.eqb a c); simpl; [done |]. tauto.
Qed.

Lemma extension_None s : extension s = None ↔ dot_free s.
Proof.
  unfold dot_free. induction s as [|a r IH]; simpl; [done |].
  destruct (extension r) as [e|].
  - split; [done |]. intros [_ H]%orb_false_iff. by apply IH in H.
  - destruct (Ascii.eqb a "."); simpl; [done |]. tauto.
Qed.

(** [rsplit('.', 1)] cuts a name into the specification's stem and
    extension. *)
Lemma rsplit1_stem_extension s :
  Py.rsplit1 "." s =
    match extension s with
    | Some e => [stem s; e]
    | None => [s]
    end.
Proof.
  unfold Py.rsplit1, Py.slice.
  induction s as [|a r IH]; [done |].
  cbn [Py.rfind extension stem].
  destruct (Py.rfind "." r) as [i|] eqn:Hr.
  - destruct (extension r) as [e|]; [| done].
    injection IH as IH1 IH2.
    simpl. rewrite Nat.sub_0_r in IH1. by rewrite IH1, IH2.
  - destruct (extension r) as [e|]; [done |].
    destruct (Ascii.eqb a "."); [| done].
    simpl. by rewrite Nat.sub_0_r, substring_all.
Qed.

Lemma rsplit1_stem_defined s : Py.rsplit1 "." s !! 0%nat = Some (stem s).
Proof.
  rewrite rsplit1_stem_extension.
  destruct (extension s) eqn:He; [done |].
  simpl. f_equal. destruct s as [|a r]; [done |].
  simpl in *. destruct (extension r); [done |].
  by destruct (Ascii.eqb a ".").
Qed.

Lemma rsplit1_ext_defined s :
  Py.contains "." s = true → Py.rsplit1 "." s !! 1%nat = extension s.
Proof.
  intros Hdot. rewrite rsplit1_stem_extension.
  destruct (extension s) eqn:He; [done |].
  apply extension_None in He. unfold dot_free in He. congruence.
Qed.

Lemma stl_name_stem name : stl_name name = stem name +:+ ".stl".
Proof. unfold stl_name. by rewrite rsplit1_stem_defined. Qed.

(** What the two notions mean on a name written [p.e] with [e] free of
    dots, and on a name without dots. *)
Lemma extension_app p e :
  dot_free e → extension (p +:+ "." +:+ e) = Some e.
Proof.
  intros He. induction p as [|a p IH].
  - rewrite app_empty_l, app_String, app_empty_l. simpl.
    apply extension_None in He. by rewrite He.
  - rewrite app_String. simpl. by rewrite IH.
Qed.

Lemma stem_app p e : dot_free e → stem (p +:+ "." +:+ e) = p.
Proof.
  intros He. induction p as [|a p IH].
  - rewrite app_empty_l, app_String, app_empty_l. simpl.
    apply extension_None in He. by rewrite He.
  - rewrite app_String. simpl. rewrite extension_app by done. by rewrite IH.
Qed.

Lemma stem_dot_free s : dot_free s → stem s = s.
Proof.
  intros Hs. destruct s as [|a r]; [done |].
  unfold dot_free in Hs. simpl in *.
  apply orb_false_iff in Hs as [Ha Hr].
  apply extension_None in Hr. by rewrite Hr, Ha.
Qed.

Lemma extension_Some s e :
  extension s = Some e → s = stem s +:+ "." +:+ e ∧ dot_free e.
Proof.
  revert e. induction s as [|a r IH]; intros e; simpl; [done |].
  destruct (extension r) as [e'|] eqn:Hr.
  - intros [= <-]. destruct (IH e' eq_refl) as [Heq Hfree].
    split; [| done]. rewrite app_String. by rewrite <- Heq.
  - destruct (Ascii.eqb a ".") eqn:Ha; [| done].
    intros [= <-]. apply Ascii.eqb_eq in Ha as ->.
    split; [done |]. by apply extension_None.
Qed.

Lemma allowed_file_valid name :
  allowed_file name = true ↔ valid_extension name.
Proof.
  unfold allowed_file, valid_extension. split.
  - intros [Hdot H]%andb_true_iff.
    rewrite rsplit1_ext_defined in H by done.
    destruct (extension name) as [e|]; [| done].
    exists e. split; [done |]. by apply bool_decide_eq_true in H.
  - intros (e & He & Hin).
    assert (Py.contains "." name = true) as Hdot.
    { destruct (Py.contains "." name) eqn:Hc; [done |].
      apply extension_None in Hc. congruence. }
    rewrite Hdot, rsplit1_ext_defined, He by done.
    by apply bool_decide_eq_true.
Qed.

(** ** The sanitizer keeps a validated name storable

    A name that passes [allowed_file] ends in an extension whose last
    letter is a [p] or [P]; no step of [secure_filename] removes that
    letter, so the sanitized name is never empty. *)

Lemma is_p_facts c :
  is_p c = true →
  Werkzeug.is_ascii c = true ∧ Werkzeug.is_space c = false ∧
  Werkzeug.is_safe c = true ∧ Py.contains c "._" = false ∧
  Ascii.eqb c "/" = false ∧ Ascii.eqb c "\" = false.
Proof.
  destruct c as [[] [] [] [] [] [] [] []]; vm_compute; intros H;
    try discriminate H; repeat split.
Qed.

Lemma has_char_app q s t :
  has_char q (s +:+ t) = has_char q s || has_char q t.
Proof.
  induction s as [|c s IH]; [done |].
  rewrite app_String. simpl. by rewrite IH, orb_assoc.
Qed.

Lemma has_char_lower q s :
  has_char q (Py.lower s) = has_char (fun c => q (Py.lower_char c)) s.
Proof. induction s as [|c s IH]; simpl; [done | by rewrite IH]. Qed.

Lemma has_char_nonempty q s : has_char q s = true → s ≠ "".
Proof. by destruct s. Qed.

Lemma allowed_file_has_p name : allowed_file name = true → has_char is_p name = true.
Proof.
  intros (e & He & Hin)%allowed_file_valid.
  apply extension_Some in He as [-> _].
  rewrite !has_char_app.
  assert (has_char is_p e = true) as ->; [| by rewrite !orb_true_r].
  unfold is_p. rewrite <- (has_char_lower (fun c => Ascii.eqb c "p")).
  unfold ALLOWED_EXTENSIONS in Hin.
  apply elem_of_union in Hin as [->%elem_of_singleton | ->%elem_of_singleton];
    reflexivity.
Qed.

Lemma has_char_filter q keep s :
  (∀ c, q c = true → keep c = true) →
  has_char q s = true → has_char q (Werkzeug.filter_chars keep s) = true.
Proof.
  intros Hk. induction s as [|c s IH]; simpl; [done |].
  intros [Hc | Hs]%orb_true_iff.
  - rewrite (Hk c Hc). simpl. by rewrite Hc.
  - destruct (keep c); simpl; rewrite IH by done; by rewrite ?orb_true_r.
Qed.

Lemma has_char_to_ascii q pf s :
  (∀ c, q c = true → Werkzeug.is_ascii c = true) →
  has_char q s = true → has_char q (Werkzeug.to_ascii pf s) = true.
Proof.
  intros Hq. induction s as [|c s IH]; simpl; [done |].
  intros [Hc | Hs]%orb_true_iff.
  - rewrite (Hq c Hc). simpl. by rewrite Hc.
  - destruct (Werkzeug.is_ascii c); simpl.
    + rewrite IH by done. by rewrite orb_true_r.
    + rewrite has_char_app, IH by done. by rewrite orb_true_r.
Qed.

Lemma has_char_map q f s :
  (∀ c, q c = true → f c = c) →
  has_char q s = true → has_char q (Werkzeug.map_chars f s) = true.
Proof.
  intros Hf. induction s as [|c s IH]; simpl; [done |].
  intros [Hc | Hs]%orb_true_iff.
  - by rewrite (Hf c Hc), Hc.
  - rewrite IH by done. by rewrite orb_true_r.
Qed.

Lemma has_char_join q sep l w :
  w ∈ l → has_char q w = true → has_char q (Werkzeug.join sep l) = true.
Proof.
  intros Hin Hw. induction l as [|x l IH]; [by apply elem_of_nil in Hin |].
  apply elem_of_cons in Hin as [<- | Hin].
  - destruct l; simpl; [done |]. by rewrite has_char_app, Hw.
  - destruct l as [|y l]; [by apply elem_of_nil in Hin |].
    change (Werkzeug.join sep (x :: y :: l))
      with (x +:+ sep +:+ Werkzeug.join sep (y :: l)).
    rewrite !has_char_app, IH by done. by rewrite !orb_true_r.
Qed.

Lemma has_char_split_ws q s :
  (∀ c, q c = true → Werkzeug.is_space c = false) →
  has_char q s = true → ∃ w, w ∈ Werkzeug.split_ws s ∧ has_char q w = true.
Proof.
  intros Hq. induction s as [|c r IH]; [done |].
  cbn [has_char Werkzeug.split_ws]. intros [Hc | Hr]%orb_true_iff.
  - rewrite (Hq c Hc).
    destruct r as [|c' r']; [| destruct (Werkzeug.is_space c');
      [| destruct (Werkzeug.split_ws (String c' r'))]];
      eexists; (split; [apply list_elem_of_here |]); simpl; by rewrite Hc.
  - destruct (IH Hr) as (w & Hin & Hw).
    destruct (Werkzeug.is_space c); [by exists w |].
    destruct r as [|c' r']; [done |].
    destruct (Werkzeug.is_space c').
    { exists w. split; [by apply list_elem_of_further | done]. }
    destruct (Werkzeug.split_ws (String c' r')) as [|w0 ws];
      [by apply elem_of_nil in Hin |].
    apply elem_of_cons in Hin as [-> | Hin].
    + exists (String c w0). split; [apply list_elem_of_here |].
      simpl. by rewrite Hw, orb_true_r.
    + exists w. split; [by apply list_elem_of_further | done].
Qed.

Lemma has_char_lstrip q chars s :
  (∀ c, q c = true → Py.contains c chars = false) →
  has_char q s = true → has_char q (Werkzeug.lstrip chars s) = true.
Proof.
  intros Hq. induction s as [|c r IH]; [done |].
  intros H. cbn [Werkzeug.lstrip].
  destruct (Py.contains c chars) eqn:Hc; [| done].
  simpl in H. apply orb_true_iff in H as [H | H]; [| by apply IH].
  apply Hq in H. congruence.
Qed.

Lemma has_char_rstrip q chars s :
  (∀ c, q c = true → Py.contains c chars = false) →
  has_char q s = true → has_char q (Werkzeug.rstrip chars s) = true.
Proof.
  intros Hq. induction s as [|c r IH]; [done |].
  cbn [has_char Werkzeug.rstrip]. intros [Hc | Hr]%orb_true_iff.
  - destruct (Werkzeug.rstrip chars r).
    + rewrite (Hq c Hc). simpl. by rewrite Hc.
    + simpl. by rewrite Hc.
  - specialize (IH Hr).
    destruct (Werkzeug.rstrip chars r); [done |].
    cbn [has_char] in *. by rewrite IH, orb_true_r.
Qed.

Lemma secure_filename_has_p pf name :
  has_char is_p name = true →
  has_char is_p (Werkzeug.secure_filename pf name) = true.
Proof.
  intros H. unfold Werkzeug.secure_filename.
  match goal with
  | |- context [Werkzeug.strip ?c ?x] =>
      assert (has_char is_p (Werkzeug.strip c x) = true) as Hcore
  end.
  { unfold Werkzeug.strip.
    apply has_char_rstrip; [intros c Hc; apply (is_p_facts c Hc) |].
    apply has_char_lstrip; [intros c Hc; apply (is_p_facts c Hc) |].
    apply has_char_filter; [intros c Hc; apply (is_p_facts c Hc) |].
    edestruct (has_char_split_ws is_p) as (w & Hin & Hw);
      [intros c Hc; apply (is_p_facts c Hc) | | by eapply has_char_join].
    apply has_char_map.
    { intros c Hc. destruct (is_p_facts c Hc) as (_ & _ & _ & _ & H1 & H2).
      unfold Werkzeug.is_sep. destruct (os_name_nt pf); by rewrite ?H1, ?H2. }
    apply has_char_to_ascii; [intros c Hc; apply (is_p_facts c Hc) | done]. }
  match goal with |- context [if ?b then _ else _] => destruct b end; [| done].
  rewrite app_String, app_empty_l. cbn [has_char].
  by rewrite Hcore, orb_true_r.
Qed.

Lemma secure_filename_nonempty pf name :
  allowed_file name = true → Werkzeug.secure_filename pf name ≠ "".
Proof.
  intros H. eapply has_char_nonempty, secure_filename_has_p.
  by apply allowed_file_has_p.
Qed.

(** ** The upload handler *)

Ltac run_M := unfold bind, lift, get, raise, ret in *.

Lemma write_file_uploads now name data s d :
  uploads_dir s = Some d → name ≠ "" →
  write_file now (UPLOAD_FOLDER, name) data s = Ok (with_upload now name data d s).
Proof.
  intros Hd Hne. unfold write_file. simpl.
  rewrite bool_decide_eq_false_2 by done. by rewrite Hd.
Qed.

Lemma write_file_static now name data s :
  name ≠ "" →
  write_file now (STATIC_FOLDER, name) data s = Ok (with_static now name data s).
Proof.
  intros Hne. unfold write_file. simpl.
  by rewrite bool_decide_eq_false_2 by done.
Qed.

Lemma stl_name_nonempty name : stl_name name ≠ "".
Proof.
  rewrite stl_name_stem. destruct (stem name); [done |].
  by rewrite app_String.
Qed.

(** What the kernel's write call does to a path in the results area. *)
Lemma StlAPI_Writer_Write_static {shape} (K : kernel shape) now mode sh name s :
  name ≠ "" →
  StlAPI_Writer_Write K now mode sh (STATIC_FOLDER, name) s =
    match Write K mode sh with
    | Raise e => (Raise e, s)
    | Ok (Written data) => (Ok true, with_static now name data s)
    | Ok (WriteFailed (Some data)) => (Ok false, with_static now name data s)
    | Ok (WriteFailed None) => (Ok false, s)
    end.
Proof.
  intros Hne. unfold StlAPI_Writer_Write.
  destruct (Write K mode sh) as [[data|[data|]]|e]; try done;
    by rewrite write_file_static.
Qed.




(** The conversion adapter, step by step, for any output path. *)
Lemma convert_steps {shape} rt (K : kernel shape) now src dst s :
  convert_stp_to_stl rt K now src dst s =
    if negb (HAS_OCC rt) then
      (Raise (ImportError
         "OCP (cadquery-ocp) or pythonocc-core is required for STP file conversion"), s)
    else
      match ReadFile K (lookup_path s src) with
      | Raise e => (Raise e, s)
      | Ok status =>
          if negb (bool_decide (status = IFSelect_RetDone)) then
            (Raise (ValueError ("Error reading STEP file. Status: "
                                +:+ format_status K status)), s)
          else
            match OneShape K (lookup_path s src) with
            | Raise e => (Raise e, s)
            | Ok sh =>
                if IsNull K sh then
                  (Raise (ValueError "No shape found in STEP file"), s)
                else
                  match IncrementalMesh K sh (1 # 10)%Q true with
                  | Raise e => (Raise e, s)
                  | Ok sh' =>
                      match StlAPI_Writer_Write K now false sh' dst s with
                      | (Raise e, s') => (Raise e, s')
                      | (Ok true, s') => (Ok true, s')
                      | (Ok false, s') =>
                          (Raise (ValueError "Failed to write STL file"), s')
                      end
                  end
            end
      end.
Proof.
  unfold convert_stp_to_stl.
  destruct (negb (HAS_OCC rt)); [done |].
  run_M.
  destruct (ReadFile K (lookup_path s src)) as [status|e]; [| done].
  destruct (negb (bool_decide (status = IFSelect_RetDone))); [done |].
  destruct (OneShape K (lookup_path s src)) as [sh|e]; [| done].
  destruct (IsNull K sh); [done |].
  destruct (IncrementalMesh K sh (1 # 10)%Q true) as [sh'|e]; [| done].
  assert ((match OCC_TYPE rt with Some OCP => false | _ => false end) = false)
    as -> by (by destruct (OCC_TYPE rt) as [[]|]).
  by destruct (StlAPI_Writer_Write K now false sh' dst s) as [[[]|] ?].
Qed.

(** The conversion adapter, step by step, for an output path in the
    results area. *)
Lemma convert_run {shape} rt (K : kernel shape) now src name s :
  name ≠ "" →
  convert_stp_to_stl rt K now src (STATIC_FOLDER, name) s =
    if negb (HAS_OCC rt) then
      (Raise (ImportError
         "OCP (cadquery-ocp) or pythonocc-core is required for STP file conversion"), s)
    else
      match ReadFile K (lookup_path s src) with
      | Raise e => (Raise e, s)
      | Ok status =>
          if negb (bool_decide (status = IFSelect_RetDone)) then
            (Raise (ValueError ("Error reading STEP file. Status: "
                                +:+ format_status K status)), s)
          else
            match OneShape K (lookup_path s src) with
            | Raise e => (Raise e, s)
            | Ok sh =>
                if IsNull K sh then
                  (Raise (ValueError "No shape found in STEP file"), s)
                else
                  match IncrementalMesh K sh (1 # 10)%Q true with
                  | Raise e => (Raise e, s)
                  | Ok sh' =>
                      match Write K false sh' with
                      | Raise e => (Raise e, s)
                      | Ok (Written data) =>
                          (Ok true, with_static now name data s)
                      | Ok (WriteFailed (Some data)) =>
                          (Raise (ValueError "Failed to write STL file"),
                           with_static now name data s)
                      | Ok (WriteFailed None) =>
                          (Raise (ValueError "Failed to write STL file"), s)
                      end
                  end
            end
      end.
Proof.
  intros Hne. rewrite convert_steps.
  destruct (negb (HAS_OCC rt)); [done |].
  destruct (ReadFile K (lookup_path s src)) as [status|e]; [| done].
  destruct (negb (bool_decide (status = IFSelect_RetDone))); [done |].
  destruct (OneShape K (lookup_path s src)) as [sh|e]; [| done].
  destruct (IsNull K sh); [done |].
  destruct (IncrementalMesh K sh (1 # 10)%Q true) as [sh'|e]; [| done].
  rewrite StlAPI_Writer_Write_static by done.
  by destruct (Write K false sh') as [[data|[data|]]|e].
Qed.

(** The conversion adapter leaves the uploads area alone when it writes
    into the results area. *)
Lemma convert_keeps_uploads {shape} rt (K : kernel shape) now src name s :
  name ≠ "" →
  uploads_dir (convert_stp_to_stl rt K now src (STATIC_FOLDER, name) s).2
    = uploads_dir s.
Proof.
  intros Hne. rewrite convert_run by done.
  repeat case_match; simplify_eq; done.
Qed.

(** The handler on a submission that passes validation, with the uploads
    area in place: the file is saved, then converted or not. *)
Lemma upload_file_valid {shape} rt (K : kernel shape) now req file s d :
  files req !! "file" = Some file →
  allowed_file (filename file) = true →
  uploads_dir s = Some d →
  let name := Werkzeug.secure_filename (host rt) (filename file) in
  let s1 := with_upload now name (stream file) d s in
  upload_file rt K now req s =
    if HAS_OCC rt then
      match convert_stp_to_stl rt K now (UPLOAD_FOLDER, name)
              (STATIC_FOLDER, stl_name name) s1 with
      | (Ok _, s') => ((converted_body name (stl_name name), 200), s')
      | (Raise e, s') =>
          ((jsonify [("error", JStr ("Error processing file: " +:+ str e))],
            500), s')
      end
    else ((degraded_body name, 200), s1).
Proof.
  intros Hfile Hok Hd name s1. unfold upload_file. rewrite Hfile.
  assert (filename file ≠ "") as Hne by (intros E; by rewrite E in Hok).
  rewrite bool_decide_eq_false_2 by done. rewrite Hok. simpl.
  unfold upload_file_try, save, os_path_join. run_M.
  rewrite (write_file_uploads _ _ _ _ d) by
    (done || by apply secure_filename_nonempty).
  fold name s1. destruct (HAS_OCC rt); [| done].
  by destruct (convert_stp_to_stl _ _ _ _ _ s1) as [[?|?] ?].
Qed.

Lemma upload_keeps_uploads_dir {shape} rt (K : kernel shape) now req s :
  is_Some (uploads_dir s) → is_Some (uploads_dir (upload_file rt K now req s).2).
Proof.
  intros [d Hd].
  destruct (files req !! "file") as [file|] eqn:Hfile;
    [| unfold upload_file; rewrite Hfile; simpl; eauto].
  destruct (allowed_file (filename file)) eqn:Hok.
  - rewrite (upload_file_valid rt K now req file s d) by done.
    destruct (HAS_OCC rt); [| simpl; eauto].
    match goal with
    | |- context [convert_stp_to_stl ?a ?b ?c ?p (_, ?n) ?st] =>
        pose proof (convert_keeps_uploads a b c p n st (stl_name_nonempty _)) as Hk;
        destruct (convert_stp_to_stl a b c p (STATIC_FOLDER, n) st) as [[?|?] s']
    end; simpl in *; rewrite Hk; eauto.
  - unfold upload_file. rewrite Hfile, Hok.
    case_bool_decide; simpl; eauto.
Qed.

Lemma reachable_uploads_dir {shape} rt (K : kernel shape) s :
  reachable rt K s → is_Some (uploads_dir s).
Proof.
  induction 1 as [s0|s now req _ IH].
  - unfold startup. by destruct (uploads_dir s0) eqn:E; simpl; rewrite ?E.
  - by apply upload_keeps_uploads_dir.
Qed.

Lemma upload_file_no_dir {shape} rt (K : kernel shape) now req file s :
  files req !! "file" = Some file →
  allowed_file (filename file) = true →
  uploads_dir s = None →
  upload_file rt K now req s =
    ((jsonify [("error", JStr ("Error processing file: " +:+ str no_such_file))],
      500), s).
Proof.
  intros Hfile Hok Hd. unfold upload_file. rewrite Hfile.
  assert (filename file ≠ "") as Hne by (intros E; by rewrite E in Hok).
  rewrite bool_decide_eq_false_2 by done. rewrite Hok. simpl.
  unfold upload_file_try, save, os_path_join, write_file. run_M. simpl.
  rewrite bool_decide_eq_false_2 by (by apply secure_filename_nonempty).
  by rewrite Hd.
Qed.

(** C1: for every submission that passes intake validation, the derived
    mesh name is the stem of the sanitized source name followed by
    [.stl]: that is the name the handler computes, the only name it ever
    reports under [stl_file], and the name under which the results area
    then holds the mesh. The extension, whatever its case, does not enter
    the derived name. *)
Theorem derived_name_is_stem_stl {shape} rt (K : kernel shape) now req file s :
  files req !! "file" = Some file →
  allowed_file (filename file) = true →
  let name := Werkzeug.secure_filename (host rt) (filename file) in
  let derived := stem name +:+ ".stl" in
  stl_name name = derived ∧
  (∀ r, jget "stl_file" (upload_file rt K now req s).1.1 = Some r →
        r = JStr ("/static/" +:+ derived) ∧
        ∃ data, lookup_path (upload_file rt K now req s).2
                  (STATIC_FOLDER, derived) = Some (File now data)) ∧
  (∀ p e, dot_free e → stl_name (p +:+ "." +:+ e) = p +:+ ".stl").
Proof.
  intros Hfile Hok name derived.
  assert (stl_name name = derived) as Hname by apply stl_name_stem.
  split; [done |]. split.
  - intros r. destruct (uploads_dir s) as [d|] eqn:Hd.
    + rewrite (upload_file_valid rt K now req file s d) by done.
      fold name. rewrite Hname.
      destruct (HAS_OCC rt) eqn:Hocc; [| done].
      rewrite convert_run by (rewrite <- Hname; apply stl_name_nonempty).
      rewrite Hocc. simpl.
      repeat case_match; simplify_eq; simpl; try done.
      intros [= <-]. split; [done |].
      eexists. unfold lookup_path, with_static. simpl.
      apply lookup_insert_eq.
    + by rewrite (upload_file_no_dir rt K now req file s).
  - intros p e He. by rewrite stl_name_stem, stem_app.
Qed.

Lemma derived_name_is_stem_stl_witness :
  files (submit "Part.STP" "solid") !! "file"
    = Some {| filename := "Part.STP"; stream := "solid" |} ∧
  allowed_file "Part.STP" = true ∧
  stl_name (Werkzeug.secure_filename posix "Part.STP") = "Part.stl" ∧
  (upload_file (sample_runtime (Some OCP)) (sample_kernel (Written "mesh")) 7
     (submit "Part.STP" "solid") empty_fs).1
    = (converted_body "Part.STP" "Part.stl", 200).
Proof.
  assert (files (submit "Part.STP" "solid") !! "file"
            = Some {| filename := "Part.STP"; stream := "solid" |}) as H1
    by (vm_compute; reflexivity).
  assert (allowed_file "Part.STP" = true) as H2 by reflexivity.
  split; [exact H1 |]. split; [exact H2 |].
  split; [| vm_compute; reflexivity].
  exact (proj1 (derived_name_is_stem_stl (sample_runtime (Some OCP))
                  (sample_kernel (Written "mesh")) 7
                  (submit "Part.STP" "solid") _ empty_fs H1 H2)).
Defined.

(** C2, as stated, fails on the empty filename: it has no dot and no
    allowed extension, but the handler answers it with the
    no-file-selected error of line 95, not with the invalid-file-type
    error. *)
Lemma invalid_extension_rejected_counterexample :
  ¬ (∀ (rt : runtime) (K : kernel unit) now req file s,
       files req !! "file" = Some file →
       ¬ valid_extension (filename file) →
       upload_file rt K now req s = ((invalid_type_body, 400), s)).
Proof.
  intros H.
  specialize (H (sample_runtime None) (sample_kernel (Written "mesh")) 0
                (submit "" "solid") {| filename := ""; stream := "solid" |}
                empty_fs).
  assert (upload_file (sample_runtime None) (sample_kernel (Written "mesh")) 0
            (submit "" "solid") empty_fs
          = ((jsonify [("error", JStr "No file selected")], 400), empty_fs))
    as Hrun by (vm_compute; reflexivity).
  rewrite Hrun in H.
  enough (((jsonify [("error", JStr "No file selected")], 400), empty_fs)
          = ((invalid_type_body, 400), empty_fs)) as E by discriminate E.
  apply H; [vm_compute; reflexivity |].
  intros (e & He & _). discriminate He.
Qed.

Lemma dot_free_invalid name : dot_free name → ¬ valid_extension name.
Proof. intros H%extension_None (e & He & _). congruence. Qed.

(** C2, amended: for every non-empty filename whose extension, compared
    without regard to case, is not in the allow-set (a name without a dot
    included), the handler answers with the invalid-file-type error and
    status 400 and leaves both directories as they were. The empty
    filename is turned away one step earlier, with the no-file-selected
    error, status 400 as well, and nothing stored either. *)
Theorem invalid_extension_rejected {shape} rt (K : kernel shape) now req file s :
  files req !! "file" = Some file →
  ¬ valid_extension (filename file) →
  upload_file rt K now req s =
    if bool_decide (filename file = "") then
      ((jsonify [("error", JStr "No file selected")], 400), s)
    else ((invalid_type_body, 400), s).
Proof.
  intros Hfile Hbad. unfold upload_file. rewrite Hfile.
  case_bool_decide; [done |].
  destruct (allowed_file (filename file)) eqn:Hok; [| done].
  by apply allowed_file_valid in Hok.
Qed.

Lemma invalid_extension_rejected_witness :
  files (submit "notes.txt" "hello") !! "file"
    = Some {| filename := "notes.txt"; stream := "hello" |} ∧
  ¬ valid_extension "notes.txt" ∧
  upload_file (sample_runtime (Some OCP)) (sample_kernel (Written "mesh")) 3
    (submit "notes.txt" "hello") empty_fs
  = ((invalid_type_body, 400), empty_fs).
Proof.
  assert (files (submit "notes.txt" "hello") !! "file"
            = Some {| filename := "notes.txt"; stream := "hello" |}) as H1
    by (vm_compute; reflexivity).
  assert (¬ valid_extension "notes.txt") as H2.
  { intros H%allowed_file_valid. discriminate H. }
  split; [exact H1 |]. split; [exact H2 |].
  exact (invalid_extension_rejected (sample_runtime (Some OCP))
           (sample_kernel (Written "mesh")) 3 (submit "notes.txt" "hello")
           _ empty_fs H1 H2).
Defined.



(** ** The conversion adapter *)




(** ** The catalog *)

Lemma scan_file_inv s name info :
  scan_file s name = Ok info →
  fi_filename info = name ∧
  (∃ data, lookup_path s (UPLOAD_FOLDER, name) = Some (File (fi_date info) data) ∧
           fi_size info = Z.of_nat (String.length data)) ∧
  fi_stl_file info =
    if os_path_exists s (STATIC_FOLDER, stl_name name)
    then Some ("/static/" +:+ stl_name name) else None.
Proof.
  unfold scan_file, os_path_join, os_path_getmtime, os_path_getsize, rbind.
  destruct (lookup_path s (UPLOAD_FOLDER, name)) as [[mtime data|e]|]; [| done..].
  intros [= <-]. simpl. eauto.
Qed.

Lemma scan_file_Raise s name e :
  lookup_path s (UPLOAD_FOLDER, name) = Some (Broken e) →
  scan_file s name = Raise (OSError e).
Proof.
  intros H. unfold scan_file, os_path_join, os_path_getmtime, rbind.
  by rewrite H.
Qed.

Lemma scan_Ok_sound s names infos :
  scan s names = Ok infos →
  ∀ info, info ∈ infos →
    allowed_file (fi_filename info) = true ∧
    fi_filename info ∈ names ∧
    scan_file s (fi_filename info) = Ok info.
Proof.
  revert infos. induction names as [|name names IH]; intros infos; simpl.
  - intros [= <-] info Hin. by apply elem_of_nil in Hin.
  - destruct (allowed_file name) eqn:Hok.
    + destruct (scan_file s name) as [i|] eqn:Hi; [| done]. simpl.
      destruct (scan s names) as [more|]; [| done]. simpl.
      intros [= <-] info [-> | Hin]%elem_of_cons.
      * destruct (scan_file_inv _ _ _ Hi) as [-> _].
        split; [done |]. split; [apply list_elem_of_here | done].
      * destruct (IH more eq_refl info Hin) as (? & ? & ?).
        split; [done |]. split; [by apply list_elem_of_further | done].
    + intros Hs info Hin. destruct (IH infos Hs info Hin) as (? & ? & ?).
      split; [done |]. split; [by apply list_elem_of_further | done].
Qed.

Lemma scan_Ok_complete s names infos :
  scan s names = Ok infos →
  ∀ name, name ∈ names → allowed_file name = true →
    ∃ info, info ∈ infos ∧ scan_file s name = Ok info.
Proof.
  revert infos. induction names as [|n names IH]; intros infos Hs name Hin Hok.
  - by apply elem_of_nil in Hin.
  - simpl in Hs. apply elem_of_cons in Hin as [-> | Hin].
    + rewrite Hok in Hs.
      destruct (scan_file s n) as [i|]; [| done]. simpl in Hs.
      destruct (scan s names) as [more|]; [| done]. simpl in Hs.
      injection Hs as <-. exists i. split; [apply list_elem_of_here | done].
    + destruct (allowed_file n).
      * destruct (scan_file s n) as [i|]; [| done]. simpl in Hs.
        destruct (scan s names) as [more|]; [| done]. simpl in Hs.
        injection Hs as <-.
        destruct (IH more eq_refl name Hin Hok) as (info & ? & ?).
        exists info. split; [by apply list_elem_of_further | done].
      * by apply IH.
Qed.

Lemma scan_Raise_intro s names name e :
  name ∈ names → allowed_file name = true → scan_file s name = Raise e →
  ∃ e', scan s names = Raise e'.
Proof.
  intros Hin Hok Hraise. induction names as [|n names IH].
  - by apply elem_of_nil in Hin.
  - simpl. apply elem_of_cons in Hin as [<- | Hin].
    + rewrite Hok, Hraise. simpl. eauto.
    + destruct (IH Hin) as [e' He'].
      destruct (allowed_file n); [| eauto].
      destruct (scan_file s n); simpl; [| eauto].
      rewrite He'. simpl. eauto.
Qed.

Lemma insert_desc_perm x l : insert_desc x l ≡ₚ x :: l.
Proof.
  induction l as [|y l IH]; simpl; [done |].
  destruct (fi_date x <? fi_date y); [| done].
  rewrite IH. apply Permutation_swap.
Qed.

Lemma sort_desc_perm l : sort_desc l ≡ₚ l.
Proof.
  induction l as [|x l IH]; simpl; [done |].
  by rewrite insert_desc_perm, IH.
Qed.

Lemma insert_desc_newest_first x l :
  newest_first l → newest_first (insert_desc x l).
Proof.
  unfold newest_first. induction 1 as [|y l Hl IH Hy]; simpl.
  - repeat constructor.
  - destruct (Z.ltb_spec (fi_date x) (fi_date y)) as [Hlt | Hge].
    + constructor; [done |].
      rewrite insert_desc_perm. constructor; [lia | done].
    + constructor; [by constructor |].
      constructor; [done |].
      eapply Forall_impl; [exact Hy |]. simpl. intros z Hz. lia.
Qed.

Lemma sort_desc_newest_first l : newest_first (sort_desc l).
Proof.
  induction l as [|x l IH]; simpl; [constructor |].
  by apply insert_desc_newest_first.
Qed.

(** What a successful catalog computation looks like. *)
Lemma recent_files_Ok s infos :
  recent_files s = Ok infos →
  (uploads_dir s = None ∧ infos = []) ∨
  ∃ d all,
    uploads_dir s = Some d ∧
    scan s (map_to_list d).*1 = Ok all ∧
    infos = take 4 (sort_desc all).
Proof.
  unfold recent_files, os_listdir_uploads.
  destruct (uploads_dir s) as [d|]; [| intros [= <-]; by left].
  destruct (listdir_fault s); [done |]. simpl.
  destruct (scan s (map_to_list d).*1) as [all|] eqn:Hscan; [| done].
  simpl. intros [= <-]. right. by exists d, all.
Qed.

Lemma recent_files_elem s infos info :
  recent_files s = Ok infos → info ∈ infos →
  allowed_file (fi_filename info) = true ∧
  scan_file s (fi_filename info) = Ok info.
Proof.
  intros [[_ ->] | (d & all & Hd & Hscan & ->)]%recent_files_Ok Hin.
  - by apply elem_of_nil in Hin.
  - assert (info ∈ all) as Hall.
    { rewrite <- (sort_desc_perm all), <- (take_drop 4 (sort_desc all)).
      apply elem_of_app. by left. }
    destruct (scan_Ok_sound _ _ _ Hscan info Hall) as (? & _ & ?). done.
Qed.

Lemma get_recent_uploads_Ok rt s js :
  get_recent_uploads rt s = (jsonify [("files", JList js)], 200) →
  ∃ infos, recent_files s = Ok infos ∧ js = file_info_json rt <$> infos.
Proof.
  unfold get_recent_uploads.
  destruct (recent_files s) as [infos|e]; [| done].
  intros [= <-]. by exists infos.
Qed.


(** C8: whenever a file-system access of the catalog scan fails, the
    handler answers with the structured error payload: a message, an
    empty [files] list, status 500. The handler is a total function into
    responses, so no exception leaves it. *)
Theorem scan_fault_reported rt s :
  scan_fault s →
  ∃ msg, get_recent_uploads rt s
           = (jsonify [("error", JStr msg); ("files", JList [])], 500).
Proof.
  intros (d & Hd & Hfault).
  enough (∃ e, recent_files s = Raise e) as [e He].
  { exists (str e). unfold get_recent_uploads. by rewrite He. }
  unfold recent_files, os_listdir_uploads. rewrite Hd.
  destruct (listdir_fault s) as [msg|] eqn:Hl; [simpl; eauto |].
  destruct Hfault as [[? [=]] | (name & e & Hok & Hbroken)].
  simpl. 
  destruct (scan_Raise_intro s (map_to_list d).*1 name (OSError e)) as [e' He'].
  - apply list_elem_of_fmap. exists (name, Broken e). split; [done |].
    by apply elem_of_map_to_list.
  - done.
  - apply scan_file_Raise. unfold lookup_path. simpl. by rewrite Hd.
  - rewrite He'. simpl. eauto.
Qed.

Lemma scan_fault_reported_witness :
  scan_fault unlistable_fs ∧
  ∃ msg, get_recent_uploads (sample_runtime None) unlistable_fs
           = (jsonify [("error", JStr msg); ("files", JList [])], 500).
Proof.
  assert (scan_fault unlistable_fs) as H.
  { exists ∅. split; [reflexivity |]. left. by eexists. }
  split; [exact H |].
  exact (scan_fault_reported (sample_runtime None) unlistable_fs H).
Defined.


(** C9: in every entry the catalog returns, the mesh reference is null
    when no file named stem-plus-[.stl] exists in the results area at the
    time of the scan, and is the public path of that file when it does. *)
Theorem mesh_reference_iff_exists rt s js j :
  get_recent_uploads rt s = (jsonify [("files", JList js)], 200) →
  j ∈ js →
  ∃ name,
    jfield "filename" j = Some (JStr name) ∧
    jfield "stl_file" j =
      Some (if os_path_exists s (STATIC_FOLDER, stem name +:+ ".stl")
            then JStr ("/static/" +:+ stem name +:+ ".stl")
            else JNull).
Proof.
  intros (infos & Hrecent & ->)%get_recent_uploads_Ok
         (info & -> & Hin)%list_elem_of_fmap.
  destruct (recent_files_elem _ _ _ Hrecent Hin) as [_ Hscan].
  destruct (scan_file_inv _ _ _ Hscan) as (_ & _ & Hstl).
  exists (fi_filename info). split; [done |].
  rewrite stl_name_stem in Hstl.
  unfold file_info_json, jfield. simpl. rewrite Hstl.
  by destruct (os_path_exists s (STATIC_FOLDER, stem (fi_filename info) +:+ ".stl")).
Qed.

Lemma mesh_reference_iff_exists_witness :
  let cube := JDict [("filename", JStr "cube.step"); ("stl_file", JNull);
                     ("date", JStr "2024-01-01T00:00:00"); ("size", JInt 5)] in
  let gear := JDict [("filename", JStr "gear.stp");
                     ("stl_file", JStr "/static/gear.stl");
                     ("date", JStr "2024-01-01T00:00:00"); ("size", JInt 5)] in
  get_recent_uploads (sample_runtime None) catalog_fs
    = (jsonify [("files", JList [gear; cube])], 200) ∧
  cube ∈ [gear; cube] ∧
  os_path_exists catalog_fs (STATIC_FOLDER, "cube.stl") = false ∧
  ∃ name,
    jfield "filename" cube = Some (JStr name) ∧
    jfield "stl_file" cube =
      Some (if os_path_exists catalog_fs (STATIC_FOLDER, stem name +:+ ".stl")
            then JStr ("/static/" +:+ stem name +:+ ".stl")
            else JNull).
Proof.
  intros cube gear.
  assert (get_recent_uploads (sample_runtime None) catalog_fs
            = (jsonify [("files", JList [gear; cube])], 200)) as H1
    by (vm_compute; reflexivity).
  assert (cube ∈ [gear; cube]) as H2
    by (apply list_elem_of_further, list_elem_of_here).
  split; [exact H1 |]. split; [exact H2 |].
  split; [vm_compute; reflexivity |].
  exact (mesh_reference_iff_exists (sample_runtime None) catalog_fs
           [gear; cube] cube H1 H2).
Defined.

(** C5, as stated, fails when the kernel's write call reports failure
    after it has put bytes at the output path: the handler answers with an
    error, nothing removes those bytes, and the next catalog read attaches
    a reference to a mesh that was not there before the failed
    conversion. *)
Lemma failed_conversion_counterexample :
  ¬ (∀ (rt : runtime) (K : kernel unit) now req file s js j r,
       files req !! "file" = Some file →
       allowed_file (filename file) = true →
       HAS_OCC rt = true →
       (upload_file rt K now req s).1.2 = 500 →
       get_recent_uploads rt (upload_file rt K now req s).2
         = (jsonify [("files", JList js)], 200) →
       j ∈ js →
       jfield "stl_file" j = Some (JStr r) →
       ∃ derived, r = "/static/" +:+ derived ∧
                  os_path_exists s (STATIC_FOLDER, derived) = true).
Proof.
  intros H.
  pose (cube := JDict [("filename", JStr "cube.step");
                       ("stl_file", JStr "/static/cube.stl");
                       ("date", JStr "2024-01-01T00:00:00"); ("size", JInt 5)]).
  destruct (H (sample_runtime (Some OCP))
              (sample_kernel (WriteFailed (Some "par"))) 7
              (submit "cube.step" "solid")
              {| filename := "cube.step"; stream := "solid" |}
              empty_fs [cube] cube "/static/cube.stl")
    as (derived & _ & Hexists);
    try (vm_compute; reflexivity).
  - apply list_elem_of_here.
  - unfold os_path_exists, lookup_path, empty_fs in Hexists. simpl in Hexists.
    by rewrite lookup_empty in Hexists.
Qed.

(** C5, amended: when the conversion of a stored upload fails, the
    handler answers with an error payload and status 500 that names no
    derived asset, and the raw upload stays stored. The results area is
    left exactly as it was, except when the failure is the write call
    reporting failure after it has put bytes at the output path: those
    bytes then stay under the derived name, where a catalog read finds
    them. *)
Theorem failed_conversion_reports_no_asset {shape} rt (K : kernel shape)
    now req file s d e :
  files req !! "file" = Some file →
  allowed_file (filename file) = true →
  HAS_OCC rt = true →
  uploads_dir s = Some d →
  let name := Werkzeug.secure_filename (host rt) (filename file) in
  let derived := stl_name name in
  let src := Some (File now (stream file)) in
  (convert_stp_to_stl rt K now (UPLOAD_FOLDER, name) (STATIC_FOLDER, derived)
     (with_upload now name (stream file) d s)).1 = Raise e →
  let s' := (upload_file rt K now req s).2 in
  (upload_file rt K now req s).1
    = (jsonify [("error", JStr ("Error processing file: " +:+ str e))], 500) ∧
  jget "stl_file" (upload_file rt K now req s).1.1 = None ∧
  lookup_path s' (UPLOAD_FOLDER, name) = Some (File now (stream file)) ∧
  (static_dir s' = static_dir s ∨
   ∃ sh sh' data,
     ReadFile K src = Ok IFSelect_RetDone ∧
     OneShape K src = Ok sh ∧ IsNull K sh = false ∧
     IncrementalMesh K sh (1 # 10)%Q true = Ok sh' ∧
     Write K false sh' = Ok (WriteFailed (Some data)) ∧
     static_dir s' = <[derived := File now data]> (static_dir s) ∧
     os_path_exists s' (STATIC_FOLDER, derived) = true).
Proof.
  intros Hfile Hok Hocc Hd name derived src Hfail s'. subst s'.
  rewrite (upload_file_valid rt K now req file s d) by done.
  rewrite Hocc. fold name derived.
  assert (lookup_path (with_upload now name (stream file) d s)
            (UPLOAD_FOLDER, name) = src) as Hsrc.
  { unfold lookup_path, with_upload. simpl. apply lookup_insert_eq. }
  revert Hfail. rewrite convert_run by apply stl_name_nonempty.
  rewrite Hocc, Hsrc. simpl.
  destruct (ReadFile K src) as [status|e0]; simpl;
    [| intros [= ->]; by auto].
  case_bool_decide as Hst; simpl; [| intros [= <-]; by auto]. subst status.
  destruct (OneShape K src) as [sh|e0]; simpl; [| intros [= ->]; by auto].
  destruct (IsNull K sh) eqn:Hnull; simpl; [intros [= <-]; by auto |].
  destruct (IncrementalMesh K sh (1 # 10)%Q true) as [sh'|e0] eqn:Hmesh;
    simpl; [| intros [= ->]; by auto].
  destruct (Write K false sh') as [[data|[data|]]|e0] eqn:Hwrite; simpl;
    [done | | intros [= <-]; by auto | intros [= ->]; by auto].
  intros [= <-]. split; [done |]. split; [done |].
  split; [unfold lookup_path, with_static, with_upload; simpl;
          apply lookup_insert_eq |].
  right. exists sh, sh', data. repeat split; try done.
  unfold os_path_exists, lookup_path, with_static. simpl.
  by rewrite lookup_insert_eq.
Qed.

Lemma failed_conversion_reports_no_asset_witness :
  files (submit "cube.step" "solid") !! "file"
    = Some {| filename := "cube.step"; stream := "solid" |} ∧
  allowed_file "cube.step" = true ∧
  HAS_OCC (sample_runtime (Some OCP)) = true ∧
  uploads_dir empty_fs = Some ∅ ∧
  (convert_stp_to_stl (sample_runtime (Some OCP))
     (sample_kernel (WriteFailed None)) 7
     (UPLOAD_FOLDER, "cube.step") (STATIC_FOLDER, "cube.stl")
     (with_upload 7 "cube.step" "solid" ∅ empty_fs)).1
    = Raise (ValueError "Failed to write STL file") ∧
  (upload_file (sample_runtime (Some OCP)) (sample_kernel (WriteFailed None)) 7
     (submit "cube.step" "solid") empty_fs).1
    = (jsonify [("error",
                 JStr "Error processing file: Failed to write STL file")], 500).
Proof.
  assert (files (submit "cube.step" "solid") !! "file"
            = Some {| filename := "cube.step"; stream := "solid" |}) as H1
    by (vm_compute; reflexivity).
  assert ((convert_stp_to_stl (sample_runtime (Some OCP))
             (sample_kernel (WriteFailed None)) 7
             (UPLOAD_FOLDER, "cube.step") (STATIC_FOLDER, "cube.stl")
             (with_upload 7 "cube.step" "solid" ∅ empty_fs)).1
          = Raise (ValueError "Failed to write STL file")) as H2
    by (vm_compute; reflexivity).
  split; [exact H1 |]. split; [reflexivity |]. split; [reflexivity |].
  split; [reflexivity |]. split; [exact H2 |].
  exact (proj1 (failed_conversion_reports_no_asset (sample_runtime (Some OCP))
                  (sample_kernel (WriteFailed None)) 7
                  (submit "cube.step" "solid") _ empty_fs ∅ _
                  H1 eq_refl eq_refl eq_refl H2)).
Defined.

(** ** Serving stored files *)





(** ** A validated name the catalog never shows *)

Lemma secure_filename_dot_stp pf :
  Werkzeug.secure_filename pf ".stp" = "stp" ∨
  Werkzeug.secure_filename pf ".stp" = "_stp".
Proof.
  unfold Werkzeug.secure_filename. cbv zeta.
  match goal with
  | |- context [Werkzeug.strip ?c ?x] =>
      assert (Werkzeug.strip c x = "stp") as ->
  end.
  { destruct pf as [[] devs fold]; vm_compute; reflexivity. }
  match goal with |- context [if ?b then _ else _] => destruct b end;
    [by right | by left].
Qed.

(** C10: the filename [.stp] passes the upload validation, but its
    sanitized name has no extension in the allow-set left. In every state of the running
    service the upload is stored under that name, and reported as a
    success when no kernel is imported; yet no catalog read, in any
    state, returns an entry of that name. *)
Theorem validated_upload_missing_from_catalog {shape} :
  ∃ fname,
    allowed_file fname = true ∧
    ∀ rt (K : kernel shape) now data s,
      let name := Werkzeug.secure_filename (host rt) fname in
      let run := upload_file rt K now (submit fname data) s in
      ¬ valid_extension name ∧
      (reachable rt K s →
       lookup_path run.2 (UPLOAD_FOLDER, name) = Some (File now data) ∧
       (HAS_OCC rt = false → run.1 = (degraded_body name, 200))) ∧
      (∀ rt' s'' js j,
         get_recent_uploads rt' s'' = (jsonify [("files", JList js)], 200) →
         j ∈ js → jfield "filename" j ≠ Some (JStr name)).
Proof.
  exists ".stp". split; [reflexivity |].
  intros rt K now data s name run.
  assert (allowed_file name = false) as Hname.
  { subst name. by destruct (secure_filename_dot_stp (host rt)) as [-> | ->]. }
  assert (files (submit ".stp" data) !! "file"
            = Some {| filename := ".stp"; stream := data |}) as Hfile
    by apply lookup_singleton_eq.
  split; [intros H%allowed_file_valid; congruence |]. split.
  - intros Hreach.
    destruct (reachable_uploads_dir rt K s Hreach) as [d Hd].
    pose proof (upload_file_valid rt K now _ _ s d Hfile eq_refl Hd) as Hrun.
    simpl in Hrun. fold name run in Hrun. split.
    + rewrite Hrun. destruct (HAS_OCC rt).
      * match goal with
        | |- context [convert_stp_to_stl ?a ?b ?c ?p (_, ?n) ?st] =>
            pose proof (convert_keeps_uploads a b c p n st
                          (stl_name_nonempty _)) as Hk;
            destruct (convert_stp_to_stl a b c p (STATIC_FOLDER, n) st)
              as [[?|?] s']
        end; unfold lookup_path; simpl in *; rewrite Hk; simpl;
          apply lookup_insert_eq.
      * unfold lookup_path. simpl. apply lookup_insert_eq.
    + intros Hocc. rewrite Hrun. by rewrite Hocc.
  - intros rt' s'' js j (infos & Hrecent & ->)%get_recent_uploads_Ok
                        (info & -> & Hin)%list_elem_of_fmap.
    destruct (recent_files_elem _ _ _ Hrecent Hin) as [Hok _].
    unfold file_info_json, jfield. simpl. intros [= E]. congruence.
Qed.

(** ** The scenarios of the specification *)

Example allowed_file_examples :
  allowed_file "cube.step" = true ∧ allowed_file "Part.STP" = true ∧
  allowed_file "notes.txt" = false ∧ allowed_file "stp" = false ∧
  allowed_file "archive.stp.txt" = false ∧ allowed_file ".stp" = true.
Proof. repeat split. Qed.

Example secure_filename_examples :
  Werkzeug.secure_filename posix "My cool part.STEP" = "My_cool_part.STEP" ∧
  Werkzeug.secure_filename posix "../../etc/gear.stp" = "etc_gear.stp" ∧
  Werkzeug.secure_filename windows "con.stp" = "_con.stp" ∧
  Werkzeug.secure_filename posix ".stp" = "stp".
Proof. repeat split; vm_compute; reflexivity. Qed.

(** Upload of [cube.step] with the kernel available. *)
Example scenario_converted :
  let run := upload_file (sample_runtime (Some OCP))
               (sample_kernel (Written "mesh")) 7
               (submit "cube.step" "solid") empty_fs in
  run.1 = (converted_body "cube.step" "cube.stl", 200) ∧
  lookup_path run.2 (STATIC_FOLDER, "cube.stl") = Some (File 7 "mesh") ∧
  lookup_path run.2 (UPLOAD_FOLDER, "cube.step") = Some (File 7 "solid").
Proof. repeat split; vm_compute; reflexivity. Qed.

(** The catalog before any upload. *)
Example scenario_empty_catalog :
  get_recent_uploads (sample_runtime None) empty_fs
    = (jsonify [("files", JList [])], 200).
Proof. vm_compute. reflexivity. Qed.

(** A failed write that leaves bytes behind, then a catalog read. *)
Example scenario_partial_mesh :
  let run := upload_file (sample_runtime (Some OCP))
               (sample_kernel (WriteFailed (Some "par"))) 7
               (submit "cube.step" "solid") empty_fs in
  run.1 = (jsonify [("error",
                     JStr "Error processing file: Failed to write STL file")],
           500) ∧
  get_recent_uploads (sample_runtime (Some OCP)) run.2
    = (jsonify [("files",
         JList [JDict [("filename", JStr "cube.step");
                       ("stl_file", JStr "/static/cube.stl");
                       ("date", JStr "2024-01-01T00:00:00");
                       ("size", JInt 5)]])], 200).
Proof. repeat split; vm_compute; reflexivity. Qed.

(** * Further properties of the code *)

(** ** The file-type check and the sanitizer *)

(** X1: [allowed_file] looks at nothing but the text after the last dot,
    compared without regard to case: a name [p.e] with [e] free of dots is
    accepted exactly when the lower-cased [e] is in the allow-set, whatever
    [p] is, and the dot-free [e] on its own is rejected. *)
Theorem allowed_file_last_extension p e :
  dot_free e →
  allowed_file (p +:+ "." +:+ e)
    = bool_decide (Py.lower e ∈ ALLOWED_EXTENSIONS) ∧
  allowed_file e = false.
Proof.
  intros He. split.
  - unfold allowed_file.
    assert (Py.contains "." (p +:+ "." +:+ e) = true) as Hdot.
    { destruct (Py.contains "." (p +:+ "." +:+ e)) eqn:Hc; [done |].
      apply extension_None in Hc. by rewrite extension_app in Hc. }
    by rewrite Hdot, rsplit1_ext_defined, extension_app.
  - unfold allowed_file. unfold dot_free in He. by rewrite He.
Qed.

Lemma allowed_file_last_extension_witness :
  dot_free "StEp" ∧
  allowed_file ("my.part.v2" +:+ "." +:+ "StEp") = true ∧
  allowed_file "StEp" = false.
Proof.
  assert (dot_free "StEp") as H by reflexivity.
  split; [exact H |].
  exact (allowed_file_last_extension "my.part.v2" "StEp" H).
Defined.

Lemma all_chars_filter q s : all_chars q (Werkzeug.filter_chars q s) = true.
Proof.
  induction s as [|c s IH]; simpl; [done |].
  destruct (q c) eqn:Hc; simpl; by rewrite ?Hc, ?IH.
Qed.

Lemma all_chars_lstrip q chars s :
  all_chars q s = true → all_chars q (Werkzeug.lstrip chars s) = true.
Proof.
  induction s as [|c s IH]; simpl; [done |].
  intros [Hc Hs]%andb_true_iff.
  destruct (Py.contains c chars); [by apply IH |].
  simpl. by rewrite Hc, Hs.
Qed.

Lemma all_chars_rstrip q chars s :
  all_chars q s = true → all_chars q (Werkzeug.rstrip chars s) = true.
Proof.
  induction s as [|c s IH]; simpl; [done |].
  intros [Hc Hs]%andb_true_iff. specialize (IH Hs).
  destruct (Werkzeug.rstrip chars s).
  - destruct (Py.contains c chars); simpl; by rewrite ?Hc.
  - cbn [all_chars] in *. by rewrite Hc, IH.
Qed.

Lemma all_chars_contains q c s :
  all_chars q s = true → q c = false → Py.contains c s = false.
Proof.
  intros Hs Hc. induction s as [|a s IH]; simpl; [done |].
  simpl in Hs. apply andb_true_iff in Hs as [Ha Hs].
  rewrite IH by done. rewrite orb_false_r.
  apply Ascii.eqb_neq. intros ->. congruence.
Qed.

Lemma strip_head chars s c r :
  Werkzeug.strip chars s = String c r → Py.contains c chars = false.
Proof.
  unfold Werkzeug.strip.
  assert (∀ t, Werkzeug.rstrip chars t = String c r → ∃ r', t = String c r')
    as Hr.
  { intros [|a t]; simpl; [done |].
    destruct (Werkzeug.rstrip chars t);
      [destruct (Py.contains a chars) |]; intros [= -> _]; eauto. }
  intros [r' Hl]%Hr. clear Hr.
  induction s as [|a s IH]; simpl in Hl; [done |].
  destruct (Py.contains a chars) eqn:Ha; [by apply IH |].
  by injection Hl as -> _.
Qed.

(** X2: whatever name is submitted, the sanitized name is made of
    letters, digits, [_], [.] and [-] only, so it holds no path separator
    and no white space, and it never begins with a dot: it is never [.],
    [..] or a hidden file. *)
Theorem secure_filename_safe pf name :
  all_chars Werkzeug.is_safe (Werkzeug.secure_filename pf name) = true ∧
  Py.contains "/" (Werkzeug.secure_filename pf name) = false ∧
  Py.contains "\" (Werkzeug.secure_filename pf name) = false ∧
  Py.contains " " (Werkzeug.secure_filename pf name) = false ∧
  ∀ r, Werkzeug.secure_filename pf name ≠ String "." r.
Proof.
  assert (all_chars Werkzeug.is_safe (Werkzeug.secure_filename pf name) = true)
    as Hsafe.
  { unfold Werkzeug.secure_filename. cbv zeta.
    match goal with
    | |- context [Werkzeug.strip ?c ?x] =>
        assert (all_chars Werkzeug.is_safe (Werkzeug.strip c x) = true) as Hcore
          by (apply all_chars_rstrip, all_chars_lstrip, all_chars_filter)
    end.
    match goal with |- context [if ?b then _ else _] => destruct b end;
      [| done].
    rewrite app_String, app_empty_l. cbn [all_chars]. by rewrite Hcore. }
  split; [done |].
  split; [by apply (all_chars_contains _ _ _ Hsafe) |].
  split; [by apply (all_chars_contains _ _ _ Hsafe) |].
  split; [by apply (all_chars_contains _ _ _ Hsafe) |].
  intros r. unfold Werkzeug.secure_filename. cbv zeta.
  match goal with |- context [if ?b then _ else _] => destruct b end.
  - rewrite app_String. discriminate.
  - intros H%strip_head. discriminate H.
Qed.

(** ** The conversion adapter on its own *)

Lemma write_file_frame now p data s s' :
  write_file now p data s = Ok s' →
  listdir_fault s' = listdir_fault s ∧
  ∀ q, q ≠ p → lookup_path s' q = lookup_path s q.
Proof.
  unfold write_file. destruct p as [[] name]; simpl;
    case_bool_decide; try done.
  - destruct (uploads_dir s) as [d|] eqn:Hd; [| done].
    intros [= <-]. split; [done |].
    intros [[] n] Hq; unfold lookup_path; simpl; [| done].
    rewrite Hd. simpl. apply lookup_insert_ne. congruence.
  - intros [= <-]. split; [done |].
    intros [[] n] Hq; unfold lookup_path; simpl; [done |].
    apply lookup_insert_ne. congruence.
Qed.

Lemma StlAPI_Writer_Write_frame {shape} (K : kernel shape) now mode sh p s :
  listdir_fault (StlAPI_Writer_Write K now mode sh p s).2 = listdir_fault s ∧
  ∀ q, q ≠ p →
    lookup_path (StlAPI_Writer_Write K now mode sh p s).2 q = lookup_path s q.
Proof.
  unfold StlAPI_Writer_Write.
  destruct (Write K mode sh) as [[data|[data|]]|e]; simpl; try done;
    destruct (write_file now p data s) as [s'|] eqn:Hw; simpl; try done;
    by apply (write_file_frame _ _ _ _ _ Hw).
Qed.

Lemma convert_frame {shape} rt (K : kernel shape) now src dst s :
  listdir_fault (convert_stp_to_stl rt K now src dst s).2 = listdir_fault s ∧
  ∀ q, q ≠ dst →
    lookup_path (convert_stp_to_stl rt K now src dst s).2 q = lookup_path s q.
Proof.
  rewrite convert_steps.
  pose proof (StlAPI_Writer_Write_frame K now false) as Hframe.
  repeat case_match; simplify_eq; simpl; try done;
    match goal with
    | H : StlAPI_Writer_Write K now false ?sh dst s = (_, ?s') |- _ =>
        specialize (Hframe sh dst s); by rewrite H in Hframe
    end.
Qed.

(** X3: [convert_stp_to_stl] never returns [False] (it returns [True] or
    raises), and the only thing it can change in the two directories is
    the node at its output path: every other path, the source included
    when it differs from the output, reads as before. *)
Theorem convert_writes_only_destination {shape} rt (K : kernel shape)
    now src dst s :
  let r := convert_stp_to_stl rt K now src dst s in
  (∀ b, r.1 = Ok b → b = true) ∧
  listdir_fault r.2 = listdir_fault s ∧
  (∀ q, q ≠ dst → lookup_path r.2 q = lookup_path s q).
Proof.
  intros r. split; [| apply convert_frame].
  subst r. rewrite convert_steps.
  repeat case_match; simplify_eq; simpl; by intros ? [=].
Qed.


(** X5: with no kernel imported the upload handler never consults the
    kernel: its answer and its effect are the same for any two kernels. *)
Theorem degraded_upload_ignores_kernel {shape shape'} rt
    (K : kernel shape) (K' : kernel shape') now req s :
  HAS_OCC rt = false →
  upload_file rt K now req s = upload_file rt K' now req s.
Proof.
  intros Hocc. unfold upload_file, upload_file_try.
  destruct (HAS_OCC rt); [done |]. reflexivity.
Qed.

Lemma degraded_upload_ignores_kernel_witness :
  HAS_OCC (sample_runtime None) = false ∧
  upload_file (sample_runtime None) (sample_kernel (Written "mesh")) 4
    (submit "cube.step" "solid") empty_fs
  = upload_file (sample_runtime None) (sample_kernel (WriteFailed None)) 4
      (submit "cube.step" "solid") empty_fs.
Proof.
  split; [reflexivity |].
  exact (degraded_upload_ignores_kernel (sample_runtime None)
           (sample_kernel (Written "mesh")) (sample_kernel (WriteFailed None))
           4 (submit "cube.step" "solid") empty_fs eq_refl).
Defined.

(** ** The upload handler: what it answers and what it changes *)


(** The effect of a validated upload on the two directories: the upload is
    put under its sanitized name and, possibly, bytes are put under the
    derived name. *)
Lemma upload_file_valid_state {shape} rt (K : kernel shape) now req file s d :
  files req !! "file" = Some file →
  allowed_file (filename file) = true →
  uploads_dir s = Some d →
  let name := Werkzeug.secure_filename (host rt) (filename file) in
  let s' := (upload_file rt K now req s).2 in
  uploads_dir s' = Some (<[name := File now (stream file)]> d) ∧
  listdir_fault s' = listdir_fault s ∧
  (static_dir s' = static_dir s ∨
   ∃ mesh, static_dir s' = <[stl_name name := File now mesh]> (static_dir s)).
Proof.
  intros Hfile Hok Hd name s'. subst s'.
  rewrite (upload_file_valid rt K now req file s d) by done. fold name.
  destruct (HAS_OCC rt); [| simpl; auto].
  rewrite convert_run by apply stl_name_nonempty.
  repeat case_match; simplify_eq; simpl; eauto 6.
Qed.

(** Any other request changes nothing. *)
Lemma upload_file_state {shape} rt (K : kernel shape) now req s :
  (upload_file rt K now req s).2 = s ∨
  ∃ file d,
    files req !! "file" = Some file ∧
    allowed_file (filename file) = true ∧
    uploads_dir s = Some d.
Proof.
  destruct (files req !! "file") as [file|] eqn:Hfile;
    [| left; unfold upload_file; by rewrite Hfile].
  destruct (allowed_file (filename file)) eqn:Hok;
    [| left; unfold upload_file; rewrite Hfile, Hok; by case_bool_decide].
  destruct (uploads_dir s) as [d|] eqn:Hd;
    [| left; by rewrite (upload_file_no_dir rt K now req file s)].
  right. by exists file, d.
Qed.


(** X7: an upload touches at most two paths, the sanitized name in the
    uploads area and the derived name in the results area: every other
    upload and every other mesh reads as before, and so does the
    readability of the uploads directory. *)
Theorem upload_touches_two_paths {shape} rt (K : kernel shape) now req file s q :
  files req !! "file" = Some file →
  let name := Werkzeug.secure_filename (host rt) (filename file) in
  q ≠ (UPLOAD_FOLDER, name) →
  q ≠ (STATIC_FOLDER, stl_name name) →
  lookup_path (upload_file rt K now req s).2 q = lookup_path s q ∧
  listdir_fault (upload_file rt K now req s).2 = listdir_fault s.
Proof.
  intros Hfile name Hq1 Hq2.
  destruct (upload_file_state rt K now req s)
    as [-> | (f & d & Hf & Hok & Hd)]; [done |].
  assert (f = file) as -> by congruence.
  destruct (upload_file_valid_state rt K now req file s d Hfile Hok Hd)
    as (Hup & Hfault & Hstatic).
  fold name in Hup, Hstatic. split; [| done].
  unfold lookup_path. destruct q as [[] n]; simpl.
  - rewrite Hup, Hd. simpl. apply lookup_insert_ne. congruence.
  - destruct Hstatic as [-> | [mesh ->]]; [done |].
    apply lookup_insert_ne. congruence.
Qed.

Lemma upload_touches_two_paths_witness :
  files (submit "cube.step" "solid") !! "file"
    = Some {| filename := "cube.step"; stream := "solid" |} ∧
  (UPLOAD_FOLDER, "gear.stp") ≠ (UPLOAD_FOLDER, "cube.step") ∧
  (UPLOAD_FOLDER, "gear.stp") ≠ (STATIC_FOLDER, "cube.stl") ∧
  lookup_path
    (upload_file (sample_runtime (Some OCP)) (sample_kernel (Written "mesh")) 12
       (submit "cube.step" "solid") catalog_fs).2 (UPLOAD_FOLDER, "gear.stp")
  = lookup_path catalog_fs (UPLOAD_FOLDER, "gear.stp").
Proof.
  assert (files (submit "cube.step" "solid") !! "file"
            = Some {| filename := "cube.step"; stream := "solid" |}) as H1
    by (vm_compute; reflexivity).
  assert ((UPLOAD_FOLDER, "gear.stp") ≠ (UPLOAD_FOLDER, "cube.step")) as H2
    by discriminate.
  assert ((UPLOAD_FOLDER, "gear.stp") ≠ (STATIC_FOLDER, "cube.stl")) as H3
    by discriminate.
  split; [exact H1 |]. split; [exact H2 |]. split; [exact H3 |].
  exact (proj1 (upload_touches_two_paths (sample_runtime (Some OCP))
                  (sample_kernel (Written "mesh")) 12
                  (submit "cube.step" "solid") _ catalog_fs
                  (UPLOAD_FOLDER, "gear.stp") H1 H2 H3)).
Defined.

Lemma convert_result_by_source {shape} rt (K : kernel shape) now src name s1 s2 :
  name ≠ "" →
  lookup_path s1 src = lookup_path s2 src →
  (convert_stp_to_stl rt K now src (STATIC_FOLDER, name) s1).1
  = (convert_stp_to_stl rt K now src (STATIC_FOLDER, name) s2).1.
Proof.
  intros Hne Hsrc. rewrite !convert_run by done. rewrite Hsrc.
  repeat case_match; simplify_eq; done.
Qed.





Lemma upload_file_valid_source {shape} rt (K : kernel shape) now req file s d :
  files req !! "file" = Some file →
  allowed_file (filename file) = true →
  uploads_dir s = Some d →
  let name := Werkzeug.secure_filename (host rt) (filename file) in
  (upload_file rt K now req s).1 =
    if HAS_OCC rt then
      match (convert_stp_to_stl rt K now (UPLOAD_FOLDER, name)
               (STATIC_FOLDER, stl_name name)
               (with_upload now name (stream file) d s)).1 with
      | Ok _ => (converted_body name (stl_name name), 200)
      | Raise e =>
          (jsonify [("error", JStr ("Error processing file: " +:+ str e))], 500)
      end
    else (degraded_body name, 200).
Proof.
  intros Hfile Hok Hd name.
  rewrite (upload_file_valid rt K now req file s d) by done. fold name.
  destruct (HAS_OCC rt); [| done].
  by destruct (convert_stp_to_stl _ _ _ _ _ _) as [[?|?] ?].
Qed.

(** X10: the last writer wins. When two requests carry the same filename,
    handling the second after the first gives the same answer, and leaves
    the same uploads directory, as handling the second alone: the first
    upload is overwritten without a trace there. *)
Theorem reupload_overwrites {shape} rt (K : kernel shape)
    now1 now2 req1 req2 file1 file2 s :
  files req1 !! "file" = Some file1 →
  files req2 !! "file" = Some file2 →
  filename file1 = filename file2 →
  let s1 := (upload_file rt K now1 req1 s).2 in
  (upload_file rt K now2 req2 s1).1 = (upload_file rt K now2 req2 s).1 ∧
  uploads_dir (upload_file rt K now2 req2 s1).2
    = uploads_dir (upload_file rt K now2 req2 s).2.
Proof.
  intros Hf1 Hf2 Hname s1.
  destruct (upload_file_state rt K now1 req1 s)
    as [Hsame | (f & d & Hf & Hok1 & Hd)].
  { subst s1. by rewrite Hsame. }
  assert (f = file1) as -> by congruence.
  assert (allowed_file (filename file2) = true) as Hok2 by congruence.
  destruct (upload_file_valid_state rt K now1 req1 file1 s d Hf1 Hok1 Hd)
    as (Hup1 & _ & _).
  fold s1 in Hup1. rewrite Hname in Hup1.
  set (name := Werkzeug.secure_filename (host rt) (filename file2)) in *.
  destruct (upload_file_valid_state rt K now2 req2 file2 s1 _ Hf2 Hok2 Hup1)
    as (Hup2 & _ & _).
  destruct (upload_file_valid_state rt K now2 req2 file2 s d Hf2 Hok2 Hd)
    as (Hup2' & _ & _).
  fold name in Hup2, Hup2'.
  split; [| by rewrite Hup2, Hup2', insert_insert_eq].
  rewrite (upload_file_valid_source rt K now2 req2 file2 s1 _ Hf2 Hok2 Hup1).
  rewrite (upload_file_valid_source rt K now2 req2 file2 s d Hf2 Hok2 Hd).
  fold name. destruct (HAS_OCC rt); [| done].
  rewrite (convert_result_by_source rt K now2 (UPLOAD_FOLDER, name)
             (stl_name name)
             (with_upload now2 name (stream file2)
                (<[name := File now1 (stream file1)]> d) s1)
             (with_upload now2 name (stream file2) d s));
    [done | apply stl_name_nonempty |].
  unfold lookup_path, with_upload. simpl. by rewrite !lookup_insert_eq.
Qed.

Lemma reupload_overwrites_witness :
  files (submit "cube.step" "first") !! "file"
    = Some {| filename := "cube.step"; stream := "first" |} ∧
  files (submit "cube.step" "second") !! "file"
    = Some {| filename := "cube.step"; stream := "second" |} ∧
  uploads_dir
    (upload_file (sample_runtime None) (sample_kernel (Written "mesh")) 2
       (submit "cube.step" "second")
       (upload_file (sample_runtime None) (sample_kernel (Written "mesh")) 1
          (submit "cube.step" "first") empty_fs).2).2
  = uploads_dir
      (upload_file (sample_runtime None) (sample_kernel (Written "mesh")) 2
         (submit "cube.step" "second") empty_fs).2.
Proof.
  assert (files (submit "cube.step" "first") !! "file"
            = Some {| filename := "cube.step"; stream := "first" |}) as H1
    by (vm_compute; reflexivity).
  assert (files (submit "cube.step" "second") !! "file"
            = Some {| filename := "cube.step"; stream := "second" |}) as H2
    by (vm_compute; reflexivity).
  split; [exact H1 |]. split; [exact H2 |].
  exact (proj2 (reupload_overwrites (sample_runtime None)
                  (sample_kernel (Written "mesh")) 1 2
                  (submit "cube.step" "first") (submit "cube.step" "second")
                  _ _ empty_fs H1 H2 eq_refl)).
Defined.


(** ** Invariants of the running service *)

(** X12: uploads never create an orphan mesh. If every mesh of the results
    area has its source in the uploads area before a request, the same
    holds after it; it holds when the results area is empty, hence in
    every state a service started on an empty results area reaches. *)
Theorem upload_keeps_orphan_free {shape} rt (K : kernel shape) now req s :
  orphan_free s → orphan_free (upload_file rt K now req s).2.
Proof.
  intros Hfree.
  destruct (upload_file_state rt K now req s)
    as [-> | (file & d & Hfile & Hok & Hd)]; [done |].
  destruct (upload_file_valid_state rt K now req file s d Hfile Hok Hd)
    as (Hup & _ & Hstatic).
  set (name := Werkzeug.secure_filename (host rt) (filename file)) in *.
  set (s' := (upload_file rt K now req s).2) in *.
  assert (∀ n, is_Some (lookup_path s (UPLOAD_FOLDER, n)) →
               is_Some (lookup_path s' (UPLOAD_FOLDER, n))) as Hkeep.
  { intros n. unfold lookup_path. simpl. rewrite Hup, Hd. simpl.
    rewrite lookup_insert_is_Some. destruct (decide (name = n)); auto. }
  intros m Hm.
  destruct Hstatic as [Hs | [mesh Hs]]; rewrite Hs in Hm.
  - destruct (Hfree m Hm) as (n & Hn & ->). exists n. auto.
  - apply lookup_insert_is_Some in Hm as [<- | [_ Hm]].
    + exists name. split; [| done].
      unfold lookup_path. simpl. rewrite Hup. simpl.
      by rewrite lookup_insert_eq.
    + destruct (Hfree m Hm) as (n & Hn & ->). exists n. auto.
Qed.

Lemma upload_keeps_orphan_free_witness :
  orphan_free empty_fs ∧
  orphan_free
    (upload_file (sample_runtime (Some OCP)) (sample_kernel (Written "mesh")) 7
       (submit "cube.step" "solid") empty_fs).2.
Proof.
  assert (orphan_free empty_fs) as H.
  { intros m [x Hx]. simpl in Hx. by rewrite lookup_empty in Hx. }
  split; [exact H |].
  exact (upload_keeps_orphan_free (sample_runtime (Some OCP))
           (sample_kernel (Written "mesh")) 7 (submit "cube.step" "solid")
           empty_fs H).
Defined.




(** ** The catalog: what its entries are *)

Lemma scan_filenames s names infos :
  scan s names = Ok infos →
  fi_filename <$> infos = filter (fun n => allowed_file n = true) names.
Proof.
  revert infos. induction names as [|n names IH]; intros infos; simpl.
  - by intros [= <-].
  - destruct (allowed_file n) eqn:Hok.
    + destruct (scan_file s n) as [i|] eqn:Hi; [| done]. simpl.
      destruct (scan s names) as [more|]; [| done]. simpl.
      intros [= <-]. rewrite filter_cons_True by done.
      destruct (scan_file_inv _ _ _ Hi) as [Hn _].
      rewrite fmap_cons, Hn. f_equal. by apply IH.
    + intros Hs. rewrite filter_cons_False by congruence. by apply IH.
Qed.

Lemma recent_files_NoDup s infos :
  recent_files s = Ok infos → NoDup (fi_filename <$> infos).
Proof.
  intros [[_ ->] | (d & all & Hd & Hscan & ->)]%recent_files_Ok;
    [constructor |].
  rewrite fmap_take. eapply sublist_NoDup; [| apply sublist_take].
  rewrite (sort_desc_perm all), (scan_filenames _ _ _ Hscan).
  apply NoDup_filter, NoDup_fst_map_to_list.
Qed.



(** X15: no file appears twice in a catalog answer: the [filename] fields
    of its entries are pairwise different. *)
Theorem catalog_names_distinct rt s js :
  get_recent_uploads rt s = (jsonify [("files", JList js)], 200) →
  NoDup (jfield "filename" <$> js).
Proof.
  intros (infos & Hrecent & ->)%get_recent_uploads_Ok.
  pose proof (recent_files_NoDup _ _ Hrecent) as Hnd.
  assert (jfield "filename" <$> (file_info_json rt <$> infos)
          = (fun n => Some (JStr n)) <$> (fi_filename <$> infos)) as ->.
  { rewrite <- !list_fmap_compose. by apply list_fmap_ext. }
  assert (Inj (=) (=) (fun n : string => Some (JStr n))) as Hinj
    by (by intros ?? [=]).
  by apply (NoDup_fmap_2 _).
Qed.

Lemma catalog_names_distinct_witness :
  let gear := JDict [("filename", JStr "gear.stp");
                     ("stl_file", JStr "/static/gear.stl");
                     ("date", JStr "2024-01-01T00:00:00"); ("size", JInt 5)] in
  let cube := JDict [("filename", JStr "cube.step"); ("stl_file", JNull);
                     ("date", JStr "2024-01-01T00:00:00"); ("size", JInt 5)] in
  get_recent_uploads (sample_runtime None) catalog_fs
    = (jsonify [("files", JList [gear; cube])], 200) ∧
  NoDup (jfield "filename" <$> [gear; cube]).
Proof.
  intros gear cube.
  assert (get_recent_uploads (sample_runtime None) catalog_fs
            = (jsonify [("files", JList [gear; cube])], 200)) as H1
    by (vm_compute; reflexivity).
  split; [exact H1 |].
  exact (catalog_names_distinct (sample_runtime None) catalog_fs _ H1).
Defined.

(** X16: when the scan succeeds the catalog returns as many entries as the
    uploads directory lists names that pass [allowed_file], up to four;
    and none when there is no uploads directory. *)
Theorem catalog_length rt s js :
  get_recent_uploads rt s = (jsonify [("files", JList js)], 200) →
  length js =
    match uploads_dir s with
    | Some d =>
        (length (filter (fun n => allowed_file n = true) (map_to_list d).*1)
           `min` 4)%nat
    | None => 0%nat
    end.
Proof.
  intros (infos & Hrecent & ->)%get_recent_uploads_Ok.
  rewrite length_fmap.
  apply recent_files_Ok in Hrecent
    as [[-> ->] | (d & all & -> & Hscan & ->)]; [done |].
  rewrite length_take, <- (scan_filenames _ _ _ Hscan), length_fmap.
  rewrite (Permutation_length (sort_desc_perm all)). lia.
Qed.

Lemma catalog_length_witness :
  let gear := JDict [("filename", JStr "gear.stp");
                     ("stl_file", JStr "/static/gear.stl");
                     ("date", JStr "2024-01-01T00:00:00"); ("size", JInt 5)] in
  let cube := JDict [("filename", JStr "cube.step"); ("stl_file", JNull);
                     ("date", JStr "2024-01-01T00:00:00"); ("size", JInt 5)] in
  get_recent_uploads (sample_runtime None) catalog_fs
    = (jsonify [("files", JList [gear; cube])], 200) ∧
  length [gear; cube] =
    match uploads_dir catalog_fs with
    | Some d =>
        (length (filter (fun n => allowed_file n = true) (map_to_list d).*1)
           `min` 4)%nat
    | None => 0%nat
    end.
Proof.
  intros gear cube.
  assert (get_recent_uploads (sample_runtime None) catalog_fs
            = (jsonify [("files", JList [gear; cube])], 200)) as H1
    by (vm_compute; reflexivity).
  split; [exact H1 |].
  exact (catalog_length (sample_runtime None) catalog_fs [gear; cube] H1).
Defined.

(** X17: two entries of one catalog answer whose names have the same stem
    carry the same mesh reference: [part.stp] and [part.step] share the
    one derived file [part.stl]. *)
Theorem same_stem_same_mesh rt s js j1 j2 n1 n2 :
  get_recent_uploads rt s = (jsonify [("files", JList js)], 200) →
  j1 ∈ js → j2 ∈ js →
  jfield "filename" j1 = Some (JStr n1) →
  jfield "filename" j2 = Some (JStr n2) →
  stem n1 = stem n2 →
  jfield "stl_file" j1 = jfield "stl_file" j2.
Proof.
  intros (infos & Hrecent & ->)%get_recent_uploads_Ok
         (i1 & -> & Hin1)%list_elem_of_fmap (i2 & -> & Hin2)%list_elem_of_fmap.
  unfold file_info_json, jfield. simpl. intros [= <-] [= <-] Hstem.
  destruct (recent_files_elem _ _ _ Hrecent Hin1) as [_ Hs1].
  destruct (recent_files_elem _ _ _ Hrecent Hin2) as [_ Hs2].
  destruct (scan_file_inv _ _ _ Hs1) as (_ & _ & ->).
  destruct (scan_file_inv _ _ _ Hs2) as (_ & _ & ->).
  by rewrite !stl_name_stem, Hstem.
Qed.

Lemma same_stem_same_mesh_witness :
  let step := JDict [("filename", JStr "part.step");
                     ("stl_file", JStr "/static/part.stl");
                     ("date", JStr "2024-01-01T00:00:00"); ("size", JInt 3)] in
  let stp := JDict [("filename", JStr "part.stp");
                    ("stl_file", JStr "/static/part.stl");
                    ("date", JStr "2024-01-01T00:00:00"); ("size", JInt 3)] in
  get_recent_uploads (sample_runtime None) twin_fs
    = (jsonify [("files", JList [step; stp])], 200) ∧
  step ∈ [step; stp] ∧ stp ∈ [step; stp] ∧
  stem "part.step" = stem "part.stp" ∧
  jfield "stl_file" step = jfield "stl_file" stp.
Proof.
  intros step stp.
  assert (get_recent_uploads (sample_runtime None) twin_fs
            = (jsonify [("files", JList [step; stp])], 200)) as H1
    by (vm_compute; reflexivity).
  assert (step ∈ [step; stp]) as H2 by apply list_elem_of_here.
  assert (stp ∈ [step; stp]) as H3
    by apply list_elem_of_further, list_elem_of_here.
  split; [exact H1 |]. split; [exact H2 |]. split; [exact H3 |].
  split; [reflexivity |].
  exact (same_stem_same_mesh (sample_runtime None) twin_fs [step; stp]
           step stp "part.step" "part.stp" H1 H2 H3 eq_refl eq_refl eq_refl).
Defined.

Lemma sort_desc_head all x :
  x ∈ all →
  (∀ y, y ∈ all → y = x ∨ fi_date y < fi_date x) →
  ∃ rest, sort_desc all = x :: rest.
Proof.
  intros Hx Hmax.
  pose proof (sort_desc_perm all) as Hperm.
  pose proof (sort_desc_newest_first all) as Hsorted.
  destruct (sort_desc all) as [|h rest].
  - rewrite <- Hperm in Hx. by apply elem_of_nil in Hx.
  - exists rest. f_equal.
    assert (h ∈ all) as Hh by (rewrite <- Hperm; apply list_elem_of_here).
    destruct (Hmax h Hh) as [-> | Hlt]; [done |].
    exfalso. rewrite <- Hperm in Hx.
    apply elem_of_cons in Hx as [-> | Hx]; [lia |].
    apply StronglySorted_cons in Hsorted as [Hall _].
    rewrite Forall_forall in Hall. specialize (Hall x Hx). simpl in Hall. lia.
Qed.

(** X18: a fresh upload heads the catalog. After a validated upload whose
    sanitized name still passes [allowed_file], stamped later than every
    other file of the uploads directory, a catalog read that succeeds
    lists that upload first, with the byte length of what was submitted
    and the rendering of its time stamp. *)
Theorem fresh_upload_heads_catalog {shape} rt (K : kernel shape)
    now req file s d js :
  files req !! "file" = Some file →
  allowed_file (filename file) = true →
  uploads_dir s = Some d →
  let name := Werkzeug.secure_filename (host rt) (filename file) in
  allowed_file name = true →
  (∀ n mtime data, n ≠ name → d !! n = Some (File mtime data) → mtime < now) →
  get_recent_uploads rt (upload_file rt K now req s).2
    = (jsonify [("files", JList js)], 200) →
  ∃ j rest,
    js = j :: rest ∧
    jfield "filename" j = Some (JStr name) ∧
    jfield "size" j = Some (JInt (Z.of_nat (String.length (stream file)))) ∧
    jfield "date" j = Some (JStr (isoformat rt now)).
Proof.
  intros Hfile Hok Hd name Hname Hlater
         (infos & Hrecent & ->)%get_recent_uploads_Ok.
  destruct (upload_file_valid_state rt K now req file s d Hfile Hok Hd)
    as (Hup & _ & _).
  fold name in Hup.
  set (s' := (upload_file rt K now req s).2) in *.
  assert (∀ n, lookup_path s' (UPLOAD_FOLDER, n)
               = <[name := File now (stream file)]> d !! n) as Hlook.
  { intros n. unfold lookup_path. simpl. by rewrite Hup. }
  apply recent_files_Ok in Hrecent
    as [[Hnone _] | (d' & all & Hd' & Hscan & ->)]; [congruence |].
  assert (d' = <[name := File now (stream file)]> d) as -> by congruence.
  destruct (scan_Ok_complete _ _ _ Hscan name) as (i0 & Hi0 & Hs0); [| done |].
  { apply list_elem_of_fmap. exists (name, File now (stream file)).
    split; [done |]. apply elem_of_map_to_list, lookup_insert_eq. }
  destruct (scan_file_inv _ _ _ Hs0) as (Hn0 & (data0 & Hdata0 & Hsize0) & _).
  rewrite Hlook, lookup_insert_eq in Hdata0. injection Hdata0 as Hdate0 <-.
  destruct (sort_desc_head all i0 Hi0) as [rest Hsort].
  { intros y Hy.
    destruct (scan_Ok_sound _ _ _ Hscan y Hy) as (_ & _ & Hsy).
    destruct (decide (fi_filename y = name)) as [Heq | Hne].
    - left. rewrite Heq in Hsy. congruence.
    - right. destruct (scan_file_inv _ _ _ Hsy) as (_ & (dy & Hdy & _) & _).
      rewrite Hlook, lookup_insert_ne in Hdy by done.
      rewrite <- Hdate0. by eapply Hlater. }
  rewrite Hsort. simpl.
  eexists _, _. split; [reflexivity |].
  unfold file_info_json, jfield. simpl.
  by rewrite Hn0, Hsize0, <- Hdate0.
Qed.

Lemma catalog_fs_older n mtime data :
  n ≠ "cube.step" →
  ({[ "cube.step" := File 5 "solid"; "gear.stp" := File 8 "teeth" ]}
     : gmap string node) !! n = Some (File mtime data) →
  mtime < 12.
Proof.
  intros Hn
    [[? _] | [_ [_ [= <- _]]%lookup_singleton_Some]]%lookup_insert_Some;
    [congruence | lia].
Qed.

Lemma fresh_upload_heads_catalog_witness :
  let run := upload_file (sample_runtime None) (sample_kernel (Written "mesh"))
               12 (submit "cube.step" "solid!") catalog_fs in
  let cube := JDict [("filename", JStr "cube.step"); ("stl_file", JNull);
                     ("date", JStr "2024-01-01T00:00:00"); ("size", JInt 6)] in
  let gear := JDict [("filename", JStr "gear.stp");
                     ("stl_file", JStr "/static/gear.stl");
                     ("date", JStr "2024-01-01T00:00:00"); ("size", JInt 5)] in
  files (submit "cube.step" "solid!") !! "file"
    = Some {| filename := "cube.step"; stream := "solid!" |} ∧
  allowed_file "cube.step" = true ∧
  get_recent_uploads (sample_runtime None) run.2
    = (jsonify [("files", JList [cube; gear])], 200) ∧
  ∃ j rest,
    [cube; gear] = j :: rest ∧
    jfield "filename" j = Some (JStr "cube.step") ∧
    jfield "size" j = Some (JInt 6) ∧
    jfield "date" j = Some (JStr "2024-01-01T00:00:00").
Proof.
  intros run cube gear.
  assert (files (submit "cube.step" "solid!") !! "file"
            = Some {| filename := "cube.step"; stream := "solid!" |}) as H1
    by (vm_compute; reflexivity).
  assert (get_recent_uploads (sample_runtime None) run.2
            = (jsonify [("files", JList [cube; gear])], 200)) as H2
    by (vm_compute; reflexivity).
  split; [exact H1 |]. split; [reflexivity |]. split; [exact H2 |].
  assert (uploads_dir catalog_fs
          = Some {[ "cube.step" := File 5 "solid"; "gear.stp" := File 8 "teeth" ]})
    as H3 by reflexivity.
  assert (allowed_file
            (Werkzeug.secure_filename (host (sample_runtime None)) "cube.step")
          = true) as H4 by (vm_compute; reflexivity).
  assert (Werkzeug.secure_filename (host (sample_runtime None)) "cube.step"
          = "cube.step") as Hname by (vm_compute; reflexivity).
  assert (∀ n mtime data,
            n ≠ Werkzeug.secure_filename (host (sample_runtime None)) "cube.step" →
            ({[ "cube.step" := File 5 "solid"; "gear.stp" := File 8 "teeth" ]}
               : gmap string node) !! n = Some (File mtime data) →
            mtime < 12) as H5.
  { rewrite Hname. exact catalog_fs_older. }
  exact (fresh_upload_heads_catalog (sample_runtime None)
           (sample_kernel (Written "mesh")) 12 (submit "cube.step" "solid!")
           {| filename := "cube.step"; stream := "solid!" |} catalog_fs
           {[ "cube.step" := File 5 "solid"; "gear.stp" := File 8 "teeth" ]}
           [cube; gear] H1 eq_refl H3 H4 H5 H2).
Defined.

Lemma insert_desc_stable k x l :
  filter (fun i => fi_date i = k) (insert_desc x l)
  = filter (fun i => fi_date i = k) (x :: l).
Proof.
  induction l as [|y l IH]; [done |]. simpl.
  destruct (Z.ltb_spec (fi_date x) (fi_date y)) as [Hlt | Hge]; [| done].
  rewrite (filter_cons _ y), IH, !(filter_cons _ x), (filter_cons _ y).
  repeat case_decide; try done. lia.
Qed.

(** X19: the sort of line 169 is stable: among the scanned entries, those
    with one and the same modification time stay in the order in which the
    directory listed them, so ties are broken by listing order. *)
Theorem equal_dates_keep_listing_order k l :
  filter (fun i => fi_date i = k) (sort_desc l)
  = filter (fun i => fi_date i = k) l.
Proof.
  induction l as [|x l IH]; [done |]. simpl.
  rewrite insert_desc_stable, !(filter_cons _ x), IH. done.
Qed.

(** ** The uploads directory at start-up *)


